(** * ElastiCache replication group: validation and derivation of the resource definition

    A shallow embedding of [lib/replication-group.ts] of the
    [@aws-cdk/aws-elasticache] package: the [ReplicationGroup] constructor,
    its private [validateNodeCount] and the static
    [fromReplicationGroupAttributes].

    Conventions.
    - An optional property [x?: T] is [option T]; [undefined] is [None].
    - A [number] that counts nodes is a [Z].  Truthiness of a number is
      "different from zero"; [x < 1] is [Z.ltb].  [NaN], which is falsy as
      well, is not a count and is left out.
    - A string or number that may stand for a deploy-time value is a
      [CfnString] / [CfnNumber]: a literal or a token.
    - A constructor that registers children in its construct is a
      computation in the monad [M]: the state is the map of the children of
      [this], a [throw] keeps the state reached so far (an exception does
      not undo registrations). *)

From stdpp Require Import base option numbers strings list gmap.

Local Open Scope Z_scope.
Local Open Scope string_scope.

(** ** JavaScript values and operators used by the source *)

Module Js.

(** The values that flow through the untyped [||] chains of the
    constructor: [undefined], booleans and numbers. *)
Inductive Val : Type :=
| Undefined
| Bool (b : bool)
| Num (z : Z).

Definition ofBool (o : option bool) : Val :=
  match o with Some b => Bool b | None => Undefined end.

Definition ofNum (o : option Z) : Val :=
  match o with Some z => Num z | None => Undefined end.

(** [ToBoolean]. *)
Definition truthy (v : Val) : bool :=
  match v with
  | Undefined => false
  | Bool b => b
  | Num z => negb (z =? 0)%Z
  end.

(** [a || b]: the left operand when it is truthy, else the right one. *)
Definition or (a b : Val) : Val := if truthy a then a else b.

(** [a && b]: the left operand when it is falsy, else the right one. *)
Definition and (a b : Val) : Val := if truthy a then b else a.

(** [a ?? b] on an optional property. *)
Definition nullish {A : Type} (a : option A) (b : A) : A :=
  match a with Some x => x | None => b end.

(** [s || d] for an optional string: the empty string is falsy. *)
Definition orString (s : option string) (d : string) : string :=
  match s with
  | Some x => if decide (x = "") then d else x
  | None => d
  end.

(** [o || d] and [o && o.f] for an optional object: objects are truthy. *)
Definition orObject {A : Type} (o : option A) (d : A) : A :=
  match o with Some x => x | None => d end.

Definition andField {A B : Type} (o : option A) (f : A → B) : option B :=
  match o with Some x => Some (f x) | None => None end.

(** [o === false] on an optional boolean. *)
Definition isFalse (o : option bool) : bool :=
  match o with Some false => true | _ => false end.

(** [o !== undefined]. *)
Definition isDefined {A : Type} (o : option A) : bool :=
  match o with Some _ => true | None => false end.

End Js.

(** ** Deploy-time values *)

Inductive CfnString : Type :=
| Lit (s : string)
| Ref (logicalPath : string)
| GetAtt (logicalPath attribute : string).

Inductive CfnNumber : Type :=
| NumLit (z : Z)
| NumToken (v : CfnString).

(** [Token.asNumber]. *)
Definition Token_asNumber (v : CfnString) : CfnNumber := NumToken v.

(** ** Collaborators: core, ec2, kms *)

(** Modelled from the spec: [RemovalPolicy] of [@aws-cdk/core] is not part
    of the sources at hand; the removal-policy value is one of destroy,
    retain, snapshot-then-destroy. *)
Inductive RemovalPolicy : Type := DESTROY | RETAIN | SNAPSHOT.

Module ec2.

Record IVpc : Type := { vpcId : string }.

Inductive SubnetType : Type := ISOLATED | PRIVATE | PUBLIC.

Record SubnetSelection : Type := { subnetType : option SubnetType }.

(** Modelled from the spec: the security-group handle of
    [@aws-cdk/aws-ec2] exposes a stable identifier and an egress-policy
    flag. *)
Record ISecurityGroup : Type := {
  securityGroupId : CfnString;
  allowAllOutbound : bool;
}.

(** The properties the constructor passes to [new ec2.SecurityGroup]. *)
Record SecurityGroupProps : Type := {
  description : string;
  vpc : IVpc;
}.

Record InstanceType : Type := { instanceTypeIdentifier : string }.

Definition T3 : string := "t3".
Definition MICRO : string := "micro".

Definition InstanceType_of (instanceClass instanceSize : string) : InstanceType :=
  {| instanceTypeIdentifier := instanceClass ++ "." ++ instanceSize |}.

Definition toString (t : InstanceType) : string := instanceTypeIdentifier t.

Inductive Port : Type := tcp (port : CfnNumber).

(** [new ec2.Connections({ securityGroups, defaultPort })]. *)
Record Connections : Type := {
  securityGroups : option (list ISecurityGroup);
  defaultPort : Port;
}.

End ec2.

Module kms.
Record IKey : Type := { keyArn : CfnString }.
End kms.

(** ** This package: endpoint, parameter group, subnet group *)

Module endpoint.
(** Modelled from the spec: [./endpoint] is not part of the sources at hand;
    an endpoint is an address and port pair, built without any check. *)
Record Endpoint : Type := {
  hostname : CfnString;
  port : CfnNumber;
}.

Definition new_Endpoint (address : CfnString) (p : CfnNumber) : Endpoint :=
  {| hostname := address; port := p |}.
End endpoint.

(** [IParameterGroup] of [./parameter-group]. *)
Record IParameterGroup : Type := { parameterGroupName : CfnString }.

Module SubnetGroup.

(** Modelled from the spec: [./subnet-group] is not part of the sources at
    hand; a subnet-group handle exposes a stable name, and a fresh one
    takes the network handle, a description, the subnet selection and a
    removal policy. *)
Record ISubnetGroup : Type := { subnetGroupName : CfnString }.

Record SubnetGroupProps : Type := {
  description : string;
  vpc : ec2.IVpc;
  vpcSubnets : ec2.SubnetSelection;
  removalPolicy : RemovalPolicy;
}.

End SubnetGroup.

Inductive EngineVersion : Type := REDIS_5_0_5 | REDIS_5_0_6 | REDIS_6_X.

Definition EngineVersion_value (v : EngineVersion) : string :=
  match v with
  | REDIS_5_0_5 => "5.0.5"
  | REDIS_5_0_6 => "5.0.6"
  | REDIS_6_X => "6.x"
  end.

(** ** Properties of a new replication group *)

Record ReplicationGroupProps : Type := {
  replicationGroupName : option string;
  description : option string;
  engineVersion : option EngineVersion;
  parameterGroup : option IParameterGroup;
  numberOfNodeGroups : option Z;
  numberOfCacheClusters : option Z;
  replicasPerNodeGroup : option Z;
  multiAzEnabled : option bool;
  automaticFailoverEnabled : option bool;
  clusterModeEnabled : option bool;
  nodeType : option ec2.InstanceType;
  port : option Z;
  atRestEncrypted : option bool;
  encryptionKey : option kms.IKey;
  preferredMaintenanceWindow : option string;
  snapshotWindow : option string;
  snapshotRetentionLimit : option Z;
  vpc : ec2.IVpc;
  vpcSubnets : option ec2.SubnetSelection;
  securityGroups : option (list ec2.ISecurityGroup);
  subnetGroup : option SubnetGroup.ISubnetGroup;
  removalPolicy : option RemovalPolicy;
  publiclyAccessible : option bool;
}.

(** Properties that describe an existing replication group. *)
Module Attrs.
Record ReplicationGroupAttributes : Type := {
  securityGroups : option (list ec2.ISecurityGroup);
  replicationGroupId : CfnString;
  primaryEndpointAddress : CfnString;
  primaryEndpointPort : CfnNumber;
  readerEndpointAddress : CfnString;
  readerEndpointPort : CfnNumber;
}.
End Attrs.

(** ** The generated resource [CfnReplicationGroup] *)

Module Cfn.

(** The properties the constructor passes to [new CfnReplicationGroup];
    [autoMinorVersionUpgrade] is always [undefined] and left out. *)
Record ReplicationGroupProps : Type := {
  replicationGroupDescription : string;
  replicationGroupId : option string;
  securityGroupIds : list CfnString;
  cacheSubnetGroupName : CfnString;
  port : option Z;
  cacheParameterGroupName : option CfnString;
  preferredMaintenanceWindow : option string;
  cacheNodeType : string;
  engine : string;
  engineVersion : option EngineVersion;
  snapshotWindow : option string;
  snapshotRetentionLimit : option Z;
  automaticFailoverEnabled : Js.Val;
  numCacheClusters : option Z;
  numNodeGroups : Z;
  replicasPerNodeGroup : Z;
  multiAzEnabled : option bool;
  kmsKeyId : option CfnString;
  atRestEncryptionEnabled : bool;
}.

(** The resource as it sits in the tree: its properties and the two
    policies [applyRemovalPolicy] sets. *)
Record ReplicationGroup : Type := {
  props : ReplicationGroupProps;
  deletionPolicy : option RemovalPolicy;
  updateReplacePolicy : option RemovalPolicy;
}.

End Cfn.

(** ** The construct tree under [this] *)

(** What can be registered as a child of a replication group. *)
Inductive Child : Type :=
| SubnetGroupChild (p : SubnetGroup.SubnetGroupProps)
| SecurityGroupChild (p : ec2.SecurityGroupProps)
| CfnReplicationGroupChild (r : Cfn.ReplicationGroup).

Inductive Error : Type := mkError (message : string).

(** A constructor body: it reads and extends the children of [this] and
    either completes with a value or throws.  The children registered
    before a throw stay registered. *)
Definition M (A : Type) : Type :=
  gmap string Child → gmap string Child * (Error + A).

#[export] Instance M_ret : MRet M := λ A x s, (s, inr x).

#[export] Instance M_bind : MBind M := λ A B f m s,
  match m s with
  | (s', inl e) => (s', inl e)
  | (s', inr x) => f x s'
  end.

Definition throw {A : Type} (message : string) : M A :=
  λ s, (s, inl (mkError message)).

(** [if (c) { body }] for a body that only throws. *)
Definition when (c : bool) (body : M unit) : M unit :=
  if c then body else mret tt.

(** [Node.addChild] of the constructs library: a second child under the same
    name is refused. *)
Definition addChild (id : string) (c : Child) : M unit :=
  λ s, match s !! id with
       | Some _ => (s, inl (mkError ("There is already a Construct with name '" ++ id ++ "'")))
       | None => (<[id := c]> s, inr tt)
       end.

(** [new SubnetGroup(this, id, props)]: registers the group and yields a
    handle whose name refers to it. *)
Definition new_SubnetGroup (id : string) (p : SubnetGroup.SubnetGroupProps)
  : M SubnetGroup.ISubnetGroup :=
  addChild id (SubnetGroupChild p);;
  mret {| SubnetGroup.subnetGroupName := Ref id |}.

(** [new ec2.SecurityGroup(this, id, props)]. *)
Definition new_SecurityGroup (id : string) (p : ec2.SecurityGroupProps)
  : M ec2.ISecurityGroup :=
  addChild id (SecurityGroupChild p);;
  mret {| ec2.securityGroupId := GetAtt id "GroupId"; ec2.allowAllOutbound := true |}.

(** [new CfnReplicationGroup(this, id, props)]: no policy is set yet. *)
Definition new_CfnReplicationGroup (id : string) (p : Cfn.ReplicationGroupProps)
  : M string :=
  addChild id (CfnReplicationGroupChild
                 {| Cfn.props := p;
                    Cfn.deletionPolicy := None;
                    Cfn.updateReplacePolicy := None |});;
  mret id.

(** [resource.applyRemovalPolicy(policy, { applyToUpdateReplacePolicy })]. *)
Definition applyRemovalPolicy (id : string) (policy : RemovalPolicy)
    (applyToUpdateReplacePolicy : bool) : M unit :=
  λ s, (alter (λ c,
          match c with
          | CfnReplicationGroupChild r =>
              CfnReplicationGroupChild
                {| Cfn.props := Cfn.props r;
                   Cfn.deletionPolicy := Some policy;
                   Cfn.updateReplacePolicy :=
                     if applyToUpdateReplacePolicy then Some policy
                     else Cfn.updateReplacePolicy r |}
          | _ => c
          end) id s, inr tt).

(** ** The replication group *)

(** The read contract shared by a new and an imported replication group. *)
Record IReplicationGroup : Type := {
  replicationGroupId : CfnString;
  primaryEndpoint : endpoint.Endpoint;
  readerEndpoint : endpoint.Endpoint;
  connections : ec2.Connections;
}.

(** The class [Import] local to [fromReplicationGroupAttributes]. *)
Record Import : Type := {
  import_handle :> IReplicationGroup;
  instanceIdentifiers : list string;
}.

(** [cacheNodeInstanceType]. *)
Definition cacheNodeInstanceType (instanceType : ec2.InstanceType) : string :=
  "cache." ++ ec2.toString instanceType.

Definition engineType : string := "redis".

(** [x !== undefined && x === k] and [x !== undefined && x < k] on an
    optional number. *)
Definition definedAndEq (o : option Z) (k : Z) : bool :=
  Js.isDefined o && from_option (λ z, z =? k)%Z false o.

Definition definedAndLt (o : option Z) (k : Z) : bool :=
  Js.isDefined o && from_option (λ z, z <? k)%Z false o.

Definition msgNumCacheCluster : string :=
  "Property NumCacheCluster cannot be defined along with Properties NumNodeGroups, ReplicasPerNodeGroup or NodeGroupConfiguration".
Definition msgMultiAzCluster : string :=
  "multiAZEnabled must be true, if clusterModeEnabled.".
Definition msgNodeGroups : string :=
  "Number of node groups must be >2 when cluster mode is enabled".
Definition msgFailoverCluster : string :=
  "automaticFailoverEnabled must be true when clusterModeEnabled is true.".
Definition msgFailoverMultiAz : string :=
  "Automatic Failover cannot be disabled for Multi-AZ enabled Replication Group".
Definition msgReplica : string :=
  "Must have at least one replica, if multiAZEnaled is true".
Definition msgEncryptionKey : string :=
  "Cannot set property encryptionKey without enabling encryption!".

(** [ReplicationGroup.validateNodeCount]. *)
Definition validateNodeCount (props : ReplicationGroupProps) : M unit :=
  when (Js.truthy (Js.and (Js.ofNum (numberOfCacheClusters props))
                          (Js.or (Js.ofNum (numberOfNodeGroups props))
                                 (Js.ofNum (replicasPerNodeGroup props)))))
    (throw msgNumCacheCluster);;
  when (Js.truthy (Js.ofBool (clusterModeEnabled props)))
    (when (Js.isFalse (multiAzEnabled props)) (throw msgMultiAzCluster);;
     when (definedAndEq (numberOfNodeGroups props) 1) (throw msgNodeGroups);;
     when (Js.isFalse (automaticFailoverEnabled props)) (throw msgFailoverCluster));;
  when (Js.truthy (Js.ofBool (multiAzEnabled props))
        && Js.isFalse (automaticFailoverEnabled props))
    (throw msgFailoverMultiAz);;
  when (Js.truthy (Js.ofBool (multiAzEnabled props))
        && definedAndLt (replicasPerNodeGroup props) 1)
    (throw msgReplica).

(** The object literal passed to [new CfnReplicationGroup]. *)
Definition resourceProps (props : ReplicationGroupProps)
    (subnetGroup : SubnetGroup.ISubnetGroup)
    (securityGroups : list ec2.ISecurityGroup)
    (instanceType : ec2.InstanceType) : Cfn.ReplicationGroupProps :=
  {| Cfn.replicationGroupDescription :=
       Js.orString (description props) "CDK generated replication group";
     Cfn.replicationGroupId := replicationGroupName props;
     Cfn.securityGroupIds := map ec2.securityGroupId securityGroups;
     Cfn.cacheSubnetGroupName := SubnetGroup.subnetGroupName subnetGroup;
     Cfn.port := port props;
     Cfn.cacheParameterGroupName :=
       Js.andField (parameterGroup props) parameterGroupName;
     Cfn.preferredMaintenanceWindow := preferredMaintenanceWindow props;
     Cfn.cacheNodeType := cacheNodeInstanceType instanceType;
     Cfn.engine := engineType;
     Cfn.engineVersion := engineVersion props;
     Cfn.snapshotWindow := snapshotWindow props;
     Cfn.snapshotRetentionLimit := snapshotRetentionLimit props;
     Cfn.automaticFailoverEnabled :=
       Js.or (Js.or (Js.or (Js.ofBool (clusterModeEnabled props))
                           (Js.ofBool (automaticFailoverEnabled props)))
                    (Js.ofBool (multiAzEnabled props)))
             (Js.Bool false);
     Cfn.numCacheClusters := numberOfCacheClusters props;
     Cfn.numNodeGroups :=
       if Js.truthy (Js.or (Js.ofNum (numberOfNodeGroups props))
                           (Js.ofBool (clusterModeEnabled props)))
       then 2 else 1;
     Cfn.replicasPerNodeGroup :=
       if Js.truthy (Js.or (Js.ofNum (replicasPerNodeGroup props))
                           (Js.ofBool (multiAzEnabled props)))
       then 1 else 0;
     Cfn.multiAzEnabled := multiAzEnabled props;
     Cfn.kmsKeyId := Js.andField (encryptionKey props) kms.keyArn;
     Cfn.atRestEncryptionEnabled := Js.nullish (atRestEncrypted props) true |}.

(** [new ReplicationGroup(scope, id, props)], after [super(scope, id)]. *)
Definition ReplicationGroup_constructor (id : string) (props : ReplicationGroupProps)
  : M IReplicationGroup :=
  let removalPolicy := Js.nullish (removalPolicy props) DESTROY in
  let this_vpc := vpc props in
  let this_vpcSubnets :=
    Js.nullish (vpcSubnets props) {| ec2.subnetType := Some ec2.PRIVATE |} in
  subnetGroup ←
    match subnetGroup props with
    | Some g => mret g
    | None =>
        new_SubnetGroup "Subnets"
          {| SubnetGroup.description :=
               "Subnets for " ++ id ++ " ElastiCache Replication Group";
             SubnetGroup.vpc := this_vpc;
             SubnetGroup.vpcSubnets := this_vpcSubnets;
             SubnetGroup.removalPolicy := removalPolicy |}
    end;
  securityGroups ←
    match securityGroups props with
    | Some l => mret l
    | None =>
        sg ← new_SecurityGroup "SecurityGroup"
               {| ec2.description := "ElastiCache SG"; ec2.vpc := this_vpc |};
        mret [sg]
    end;
  validateNodeCount props;;
  when (Js.isFalse (atRestEncrypted props) && Js.isDefined (encryptionKey props))
    (throw msgEncryptionKey);;
  let instanceType :=
    Js.orObject (nodeType props) (ec2.InstanceType_of ec2.T3 ec2.MICRO) in
  replicationGroup ←
    new_CfnReplicationGroup "Resource"
      (resourceProps props subnetGroup securityGroups instanceType);
  applyRemovalPolicy replicationGroup removalPolicy true;;
  let portAttribute :=
    Token_asNumber (GetAtt replicationGroup "PrimaryEndPoint.Port") in
  let primary :=
    endpoint.new_Endpoint (GetAtt replicationGroup "PrimaryEndPoint.Address")
      portAttribute in
  let readerPortAttribute :=
    Token_asNumber (GetAtt replicationGroup "ReaderEndPoint.Port") in
  let reader :=
    endpoint.new_Endpoint (GetAtt replicationGroup "ReaderEndPoint.Address")
      readerPortAttribute in
  let defaultPort := ec2.tcp (endpoint.port primary) in
  mret {| replicationGroupId := Ref replicationGroup;
          primaryEndpoint := primary;
          readerEndpoint := reader;
          connections := {| ec2.securityGroups := Some securityGroups;
                            ec2.defaultPort := defaultPort |} |}.

(** [ReplicationGroup.fromReplicationGroupAttributes(scope, id, attrs)]:
    the field initialisers of [Import], run after [super(scope, id)]. *)
Definition fromReplicationGroupAttributes (id : string)
    (attrs : Attrs.ReplicationGroupAttributes) : M Import :=
  mret {| import_handle :=
            {| connections :=
                 {| ec2.securityGroups := Attrs.securityGroups attrs;
                    ec2.defaultPort := ec2.tcp (Attrs.primaryEndpointPort attrs) |};
               replicationGroupId := Attrs.replicationGroupId attrs;
               primaryEndpoint :=
                 endpoint.new_Endpoint (Attrs.primaryEndpointAddress attrs)
                   (Attrs.primaryEndpointPort attrs);
               readerEndpoint :=
                 endpoint.new_Endpoint (Attrs.readerEndpointAddress attrs)
                   (Attrs.readerEndpointPort attrs) |};
          instanceIdentifiers := [] |}.

(** A construction starts with no child under [this]. *)
Definition construct (id : string) (props : ReplicationGroupProps)
  : gmap string Child * (Error + IReplicationGroup) :=
  ReplicationGroup_constructor id props ∅.

Definition import (id : string) (attrs : Attrs.ReplicationGroupAttributes)
  : gmap string Child * (Error + Import) :=
  fromReplicationGroupAttributes id attrs ∅.

(** ** Concrete inputs, after the unit tests of the package *)

Definition testVpc : ec2.IVpc := {| ec2.vpcId := "VPC" |}.

(** [{ vpc, ... }] with the listed properties and nothing else. *)
Definition testProps
    (nodeGroups cacheClusters replicas : option Z)
    (multiAz failover clusterMode atRest : option bool)
    (key : option kms.IKey)
    (sgs : option (list ec2.ISecurityGroup))
    (sng : option SubnetGroup.ISubnetGroup)
    (policy : option RemovalPolicy) : ReplicationGroupProps :=
  {| replicationGroupName := None;
     description := None;
     engineVersion := None;
     parameterGroup := None;
     numberOfNodeGroups := nodeGroups;
     numberOfCacheClusters := cacheClusters;
     replicasPerNodeGroup := replicas;
     multiAzEnabled := multiAz;
     automaticFailoverEnabled := failover;
     clusterModeEnabled := clusterMode;
     nodeType := None;
     port := None;
     atRestEncrypted := atRest;
     encryptionKey := key;
     preferredMaintenanceWindow := None;
     snapshotWindow := None;
     snapshotRetentionLimit := None;
     vpc := testVpc;
     vpcSubnets := None;
     securityGroups := sgs;
     subnetGroup := sng;
     removalPolicy := policy;
     publiclyAccessible := None |}.

(** [new ReplicationGroup(stack, 'rg', { vpc })]. *)
Definition propsVpcOnly : ReplicationGroupProps :=
  testProps None None None None None None None None None None None.

(** [new ReplicationGroup(stack, 'rg', { vpc, multiAzEnabled: true })]. *)
Definition propsMultiAz : ReplicationGroupProps :=
  testProps None None None (Some true) None None None None None None None.

Definition testKey : kms.IKey := {| kms.keyArn := GetAtt "kms-key" "Arn" |}.

(** [{ vpc, numberOfNodeGroups: 3, clusterModeEnabled: true }]. *)
Definition propsThreeNodeGroups : ReplicationGroupProps :=
  testProps (Some 3) None None None None (Some true) None None None None None.

(** [{ vpc, replicasPerNodeGroup: 3 }]. *)
Definition propsThreeReplicas : ReplicationGroupProps :=
  testProps None None (Some 3) None None None None None None None None.

(** [{ vpc, clusterModeEnabled: true, multiAzEnabled: false }]. *)
Definition propsClusterWithoutMultiAz : ReplicationGroupProps :=
  testProps None None None (Some false) None (Some true) None None None None None.

(** [{ vpc, automaticFailoverEnabled: true }]. *)
Definition propsFailoverOnly : ReplicationGroupProps :=
  testProps None None None None (Some true) None None None None None None.

(** A number that is supplied and different from zero: what [if (x)] sees. *)
Definition nonZero (o : option Z) : Prop := ∃ z : Z, o = Some z ∧ z ≠ 0.

(** [{ vpc, numberOfCacheClusters: 2, replicasPerNodeGroup: 0 }]. *)
Definition propsClustersAndZeroReplicas : ReplicationGroupProps :=
  testProps None (Some 2) (Some 0) None None None None None None None None.

(** [{ vpc, numberOfCacheClusters: 2, numberOfNodeGroups: 1,
      clusterModeEnabled: true, multiAzEnabled: false }]: the later checks on
    cluster mode are violated as well. *)
Definition propsClustersAndNodeGroups : ReplicationGroupProps :=
  testProps (Some 1) (Some 2) None (Some false) None (Some true) None None None None None.

(** [{ atRestEncrypted: false, encryptionKey: key, vpc }]. *)
Definition propsKeyWithoutEncryption : ReplicationGroupProps :=
  testProps None None None None None None (Some false) (Some testKey) None None None.

(** An attribute set with port 0 on both endpoints. *)
Definition attrsPortZero : Attrs.ReplicationGroupAttributes :=
  {| Attrs.securityGroups := None;
     Attrs.replicationGroupId := Lit "identifier";
     Attrs.primaryEndpointAddress := Lit "addr";
     Attrs.primaryEndpointPort := NumLit 0;
     Attrs.readerEndpointAddress := Lit "readr";
     Attrs.readerEndpointPort := NumLit 0 |}.

(** [{ vpc, removalPolicy: RemovalPolicy.RETAIN }]. *)
Definition propsRetain : ReplicationGroupProps :=
  testProps None None None None None None None None None None (Some RETAIN).

(** [{ vpc, securityGroups: [] }]. *)
Definition propsNoSecurityGroups : ReplicationGroupProps :=
  testProps None None None None None None None None (Some []) None None.

(** ** What a construction leaves in the tree *)

(** The backend resource registered under [this], if any. *)
Definition resourceOf (s : gmap string Child) : option Cfn.ReplicationGroup :=
  match s !! "Resource" with
  | Some (CfnReplicationGroupChild r) => Some r
  | _ => None
  end.

(** The resource definition a construction hands to the backend. *)
Definition synthesized (id : string) (props : ReplicationGroupProps)
  : option Cfn.ReplicationGroupProps :=
  Cfn.props <$> resourceOf (fst (construct id props)).

(** The removal policy a child was given: the subnet group receives it as a
    property, the resource through [applyRemovalPolicy], and the properties
    of a security group have no such entry. *)
Definition childRemovalPolicy (c : Child) : option RemovalPolicy :=
  match c with
  | SubnetGroupChild p => Some (SubnetGroup.removalPolicy p)
  | SecurityGroupChild _ => None
  | CfnReplicationGroupChild r => Cfn.deletionPolicy r
  end.

(** The children a construction creates by default. *)
Definition isDefaultChild (c : Child) : bool :=
  match c with
  | SubnetGroupChild _ | SecurityGroupChild _ => true
  | CfnReplicationGroupChild _ => false
  end.

(** ** Unfolding the constructor *)

(** The first check of [validateNodeCount] that fires, in source order. *)
Definition nodeCountViolation (props : ReplicationGroupProps) : option string :=
  if Js.truthy (Js.and (Js.ofNum (numberOfCacheClusters props))
                       (Js.or (Js.ofNum (numberOfNodeGroups props))
                              (Js.ofNum (replicasPerNodeGroup props))))
  then Some msgNumCacheCluster
  else if Js.truthy (Js.ofBool (clusterModeEnabled props))
          && Js.isFalse (multiAzEnabled props)
  then Some msgMultiAzCluster
  else if Js.truthy (Js.ofBool (clusterModeEnabled props))
          && definedAndEq (numberOfNodeGroups props) 1
  then Some msgNodeGroups
  else if Js.truthy (Js.ofBool (clusterModeEnabled props))
          && Js.isFalse (automaticFailoverEnabled props)
  then Some msgFailoverCluster
  else if Js.truthy (Js.ofBool (multiAzEnabled props))
          && Js.isFalse (automaticFailoverEnabled props)
  then Some msgFailoverMultiAz
  else if Js.truthy (Js.ofBool (multiAzEnabled props))
          && definedAndLt (replicasPerNodeGroup props) 1
  then Some msgReplica
  else None.

(** The first check of the whole constructor that fires. *)
Definition violation (props : ReplicationGroupProps) : option string :=
  match nodeCountViolation props with
  | Some m => Some m
  | None =>
      if Js.isFalse (atRestEncrypted props) && Js.isDefined (encryptionKey props)
      then Some msgEncryptionKey
      else None
  end.

Definition defaultSubnetGroup (id : string) (props : ReplicationGroupProps) : Child :=
  SubnetGroupChild
    {| SubnetGroup.description :=
         "Subnets for " ++ id ++ " ElastiCache Replication Group";
       SubnetGroup.vpc := vpc props;
       SubnetGroup.vpcSubnets :=
         Js.nullish (vpcSubnets props) {| ec2.subnetType := Some ec2.PRIVATE |};
       SubnetGroup.removalPolicy := Js.nullish (removalPolicy props) DESTROY |}.

Definition defaultSecurityGroup (props : ReplicationGroupProps) : Child :=
  SecurityGroupChild {| ec2.description := "ElastiCache SG"; ec2.vpc := vpc props |}.

(** The children registered by lines 364-378, before any validation. *)
Definition networkChildren (id : string) (props : ReplicationGroupProps)
  : gmap string Child :=
  let s := match subnetGroup props with
           | Some _ => ∅
           | None => <["Subnets" := defaultSubnetGroup id props]> ∅
           end in
  match securityGroups props with
  | Some _ => s
  | None => <["SecurityGroup" := defaultSecurityGroup props]> s
  end.

Definition usedSubnetGroup (props : ReplicationGroupProps) : SubnetGroup.ISubnetGroup :=
  Js.nullish (subnetGroup props) {| SubnetGroup.subnetGroupName := Ref "Subnets" |}.

Definition usedSecurityGroups (props : ReplicationGroupProps) : list ec2.ISecurityGroup :=
  Js.nullish (securityGroups props)
    [ {| ec2.securityGroupId := GetAtt "SecurityGroup" "GroupId";
         ec2.allowAllOutbound := true |} ].

Definition finalResourceProps (props : ReplicationGroupProps) : Cfn.ReplicationGroupProps :=
  resourceProps props (usedSubnetGroup props) (usedSecurityGroups props)
    (Js.orObject (nodeType props) (ec2.InstanceType_of ec2.T3 ec2.MICRO)).

Definition finalResource (props : ReplicationGroupProps) : Cfn.ReplicationGroup :=
  {| Cfn.props := finalResourceProps props;
     Cfn.deletionPolicy := Some (Js.nullish (removalPolicy props) DESTROY);
     Cfn.updateReplacePolicy := Some (Js.nullish (removalPolicy props) DESTROY) |}.

Definition synthesizedHandle (props : ReplicationGroupProps) : IReplicationGroup :=
  {| replicationGroupId := Ref "Resource";
     primaryEndpoint :=
       endpoint.new_Endpoint (GetAtt "Resource" "PrimaryEndPoint.Address")
         (NumToken (GetAtt "Resource" "PrimaryEndPoint.Port"));
     readerEndpoint :=
       endpoint.new_Endpoint (GetAtt "Resource" "ReaderEndPoint.Address")
         (NumToken (GetAtt "Resource" "ReaderEndPoint.Port"));
     connections :=
       {| ec2.securityGroups := Some (usedSecurityGroups props);
          ec2.defaultPort :=
            ec2.tcp (NumToken (GetAtt "Resource" "PrimaryEndPoint.Port")) |} |}.

(** ** [lib/parameter-group.ts] *)

Module parameter_group.

(** The cache parameter group family a parameter group is compatible with. *)
Inductive CacheParameterGroupFamily : Type :=
| MEMCACHED_1_4
| MEMCACHED_1_5
| MEMCACHED_1_6
| REDIS_2_6
| REDIS_2_8
| REDIS_3_2
| REDIS_4_0
| REDIS_5_0
| REDIS_6_X.

(** The string value of each member of the enum. *)
Definition value (f : CacheParameterGroupFamily) : string :=
  match f with
  | MEMCACHED_1_4 => "memcached1.4"
  | MEMCACHED_1_5 => "memcached1.5"
  | MEMCACHED_1_6 => "memcached1.6"
  | REDIS_2_6 => "redis2.6"
  | REDIS_2_8 => "redis2.8"
  | REDIS_3_2 => "redis3.2"
  | REDIS_4_0 => "redis4.0"
  | REDIS_5_0 => "redis5.0"
  | REDIS_6_X => "redis6.x"
  end.

(** [ParameterGroupProps]; [properties] is a string-keyed object. *)
Record ParameterGroupProps : Type := {
  description : option string;
  properties : option (gmap string string);
  cacheParameterGroupFamily : CacheParameterGroupFamily;
}.

(** The properties the constructor passes to [new CfnParameterGroup]. *)
Record CfnParameterGroupProps : Type := {
  cfn_description : string;
  cfn_cacheParameterGroupFamily : CacheParameterGroupFamily;
  cfn_properties : option (gmap string string);
}.

(** [new ParameterGroup(scope, id, props)], after [super(scope, id)], as a
    function of the children of [this]: it registers the generated resource
    under ['Resource'] and takes its [ref] as name. *)
Definition ParameterGroup_constructor (id : string) (props : ParameterGroupProps)
    (s : gmap string CfnParameterGroupProps)
  : gmap string CfnParameterGroupProps * (Error + IParameterGroup) :=
  match s !! "Resource" with
  | Some _ =>
      (s, inl (mkError ("There is already a Construct with name '" ++ "Resource" ++ "'")))
  | None =>
      (<["Resource" :=
           {| cfn_description :=
                Js.orString (description props) "ElastiCache parameter group.";
              cfn_cacheParameterGroupFamily := cacheParameterGroupFamily props;
              cfn_properties := properties props |}]> s,
       inr {| parameterGroupName := Ref "Resource" |})
  end.

(** [ParameterGroup.fromParameterGroupName(scope, id, parameterGroupName)]. *)
Definition fromParameterGroupName (id : string) (name : CfnString)
    (s : gmap string CfnParameterGroupProps)
  : gmap string CfnParameterGroupProps * (Error + IParameterGroup) :=
  (s, inr {| parameterGroupName := name |}).

End parameter_group.

(** ** Statements about properties objects *)


(** [numberOfCacheClusters] is in use together with one of the two other
    counts. *)
Definition exclusiveFieldsClash (props : ReplicationGroupProps) : Prop :=
  nonZero (numberOfCacheClusters props) ∧
  (nonZero (numberOfNodeGroups props) ∨ nonZero (replicasPerNodeGroup props)).

(** No check of the constructor fires. *)
Definition accepted (props : ReplicationGroupProps) : Prop :=
  ¬ exclusiveFieldsClash props ∧
  (clusterModeEnabled props = Some true →
     multiAzEnabled props ≠ Some false ∧
     numberOfNodeGroups props ≠ Some 1 ∧
     automaticFailoverEnabled props ≠ Some false) ∧
  (multiAzEnabled props = Some true →
     automaticFailoverEnabled props ≠ Some false ∧
     ∀ n : Z, replicasPerNodeGroup props = Some n → (1 ≤ n)%Z) ∧
  ¬ (atRestEncrypted props = Some false ∧ is_Some (encryptionKey props)).

(** [{ ...props, publiclyAccessible: b }]. *)
Definition withPubliclyAccessible (b : option bool) (props : ReplicationGroupProps)
  : ReplicationGroupProps :=
  {| replicationGroupName := replicationGroupName props;
     description := description props;
     engineVersion := engineVersion props;
     parameterGroup := parameterGroup props;
     numberOfNodeGroups := numberOfNodeGroups props;
     numberOfCacheClusters := numberOfCacheClusters props;
     replicasPerNodeGroup := replicasPerNodeGroup props;
     multiAzEnabled := multiAzEnabled props;
     automaticFailoverEnabled := automaticFailoverEnabled props;
     clusterModeEnabled := clusterModeEnabled props;
     nodeType := nodeType props;
     port := port props;
     atRestEncrypted := atRestEncrypted props;
     encryptionKey := encryptionKey props;
     preferredMaintenanceWindow := preferredMaintenanceWindow props;
     snapshotWindow := snapshotWindow props;
     snapshotRetentionLimit := snapshotRetentionLimit props;
     vpc := vpc props;
     vpcSubnets := vpcSubnets props;
     securityGroups := securityGroups props;
     subnetGroup := subnetGroup props;
     removalPolicy := removalPolicy props;
     publiclyAccessible := b |}.

(** [{ ...props, vpcSubnets: v }]. *)
Definition withVpcSubnets (v : option ec2.SubnetSelection) (props : ReplicationGroupProps)
  : ReplicationGroupProps :=
  {| replicationGroupName := replicationGroupName props;
     description := description props;
     engineVersion := engineVersion props;
     parameterGroup := parameterGroup props;
     numberOfNodeGroups := numberOfNodeGroups props;
     numberOfCacheClusters := numberOfCacheClusters props;
     replicasPerNodeGroup := replicasPerNodeGroup props;
     multiAzEnabled := multiAzEnabled props;
     automaticFailoverEnabled := automaticFailoverEnabled props;
     clusterModeEnabled := clusterModeEnabled props;
     nodeType := nodeType props;
     port := port props;
     atRestEncrypted := atRestEncrypted props;
     encryptionKey := encryptionKey props;
     preferredMaintenanceWindow := preferredMaintenanceWindow props;
     snapshotWindow := snapshotWindow props;
     snapshotRetentionLimit := snapshotRetentionLimit props;
     vpc := vpc props;
     vpcSubnets := v;
     securityGroups := securityGroups props;
     subnetGroup := subnetGroup props;
     removalPolicy := removalPolicy props;
     publiclyAccessible := publiclyAccessible props |}.

(** [{ ...props, parameterGroup: g }]. *)
Definition withParameterGroup (g : option IParameterGroup) (props : ReplicationGroupProps)
  : ReplicationGroupProps :=
  {| replicationGroupName := replicationGroupName props;
     description := description props;
     engineVersion := engineVersion props;
     parameterGroup := g;
     numberOfNodeGroups := numberOfNodeGroups props;
     numberOfCacheClusters := numberOfCacheClusters props;
     replicasPerNodeGroup := replicasPerNodeGroup props;
     multiAzEnabled := multiAzEnabled props;
     automaticFailoverEnabled := automaticFailoverEnabled props;
     clusterModeEnabled := clusterModeEnabled props;
     nodeType := nodeType props;
     port := port props;
     atRestEncrypted := atRestEncrypted props;
     encryptionKey := encryptionKey props;
     preferredMaintenanceWindow := preferredMaintenanceWindow props;
     snapshotWindow := snapshotWindow props;
     snapshotRetentionLimit := snapshotRetentionLimit props;
     vpc := vpc props;
     vpcSubnets := vpcSubnets props;
     securityGroups := securityGroups props;
     subnetGroup := subnetGroup props;
     removalPolicy := removalPolicy props;
     publiclyAccessible := publiclyAccessible props |}.

(** The attributes under which a replication group can be imported again:
    what its handle exposes. *)
Definition attributesOf (h : IReplicationGroup) : Attrs.ReplicationGroupAttributes :=
  {| Attrs.securityGroups := ec2.securityGroups (connections h);
     Attrs.replicationGroupId := replicationGroupId h;
     Attrs.primaryEndpointAddress := endpoint.hostname (primaryEndpoint h);
     Attrs.primaryEndpointPort := endpoint.port (primaryEndpoint h);
     Attrs.readerEndpointAddress := endpoint.hostname (readerEndpoint h);
     Attrs.readerEndpointPort := endpoint.port (readerEndpoint h) |}.

(** More inputs after the unit tests. *)

(** [{ vpc, clusterModeEnabled: true }]. *)
Definition propsClusterMode : ReplicationGroupProps :=
  testProps None None None None None (Some true) None None None None None.

(** [{ vpc, clusterModeEnabled: true, numberOfNodeGroups: 1 }]. *)
Definition propsClusterOneNodeGroup : ReplicationGroupProps :=
  testProps (Some 1) None None None None (Some true) None None None None None.

(** [{ vpc, multiAzEnabled: true, replicasPerNodeGroup: 0 }]. *)
Definition propsMultiAzNoReplica : ReplicationGroupProps :=
  testProps None None (Some 0) (Some true) None None None None None None None.

(** [{ vpc, multiAzEnabled: true, automaticFailoverEnabled: false }]. *)
Definition propsMultiAzNoFailover : ReplicationGroupProps :=
  testProps None None None (Some true) (Some false) None None None None None None.

(** [{ encryptionKey: key, vpc }]. *)
Definition propsWithKey : ReplicationGroupProps :=
  testProps None None None None None None None (Some testKey) None None None.

Definition testSecurityGroup : ec2.ISecurityGroup :=
  {| ec2.securityGroupId := Lit "SecurityGroupId12345"; ec2.allowAllOutbound := true |}.

Definition testSubnetGroup : SubnetGroup.ISubnetGroup :=
  {| SubnetGroup.subnetGroupName := Lit "my-existing-ReplicationGroup-subnet-group" |}.

(** [{ vpc, securityGroups: [sg] }]. *)
Definition propsWithSecurityGroup : ReplicationGroupProps :=
  testProps None None None None None None None None (Some [testSecurityGroup]) None None.

(** [{ vpc, subnetGroup }]. *)
Definition propsWithSubnetGroup : ReplicationGroupProps :=
  testProps None None None None None None None None None (Some testSubnetGroup) None.

(** [{ description: 'bye', cacheParameterGroupFamily: REDIS_6_X,
      properties: { param: 'value' } }]. *)
Definition testParameterGroupProps : parameter_group.ParameterGroupProps :=
  {| parameter_group.description := Some "bye";
     parameter_group.properties := Some {[ "param" := "value" ]};
     parameter_group.cacheParameterGroupFamily := parameter_group.REDIS_6_X |}.

(** The messages other than [m] differ from [m]. *)
Ltac other_messages m :=
  let go m' :=
    first [ constr_eq m m' | assert (m' ≠ m) by discriminate ] in
  go msgNumCacheCluster; go msgMultiAzCluster; go msgNodeGroups;
  go msgFailoverCluster; go msgFailoverMultiAz; go msgReplica;
  go msgEncryptionKey.

Section Unfolding.

Context {A B : Type}.

Lemma bind_run (m : M A) (f : A → M B) (s : gmap string Child) :
  (m ≫= f) s = match m s with
               | (s', inl e) => (s', inl e)
               | (s', inr x) => f x s'
               end.
Proof. reflexivity. Qed.

Lemma bind_ok (m : M A) (f : A → M B) (s s' : gmap string Child) (x : A) :
  m s = (s', inr x) → (m ≫= f) s = f x s'.
Proof. intros H. rewrite bind_run, H. reflexivity. Qed.

Lemma bind_throw (m : M A) (f : A → M B) (s s' : gmap string Child) (e : Error) :
  m s = (s', inl e) → (m ≫= f) s = (s', inl e).
Proof. intros H. rewrite bind_run, H. reflexivity. Qed.

End Unfolding.

Lemma addChild_fresh (id : string) (c : Child) (s : gmap string Child) :
  s !! id = None → addChild id c s = (<[id := c]> s, inr tt).
Proof. intros H. unfold addChild. rewrite H. reflexivity. Qed.

Lemma networkChildren_no_resource (id : string) (props : ReplicationGroupProps) :
  networkChildren id props !! "Resource" = None.
Proof.
  unfold networkChildren.
  destruct (subnetGroup props), (securityGroups props);
    repeat (rewrite lookup_insert_ne by discriminate); apply lookup_empty.
Qed.

Lemma validateNodeCount_run (props : ReplicationGroupProps) (s : gmap string Child) :
  validateNodeCount props s =
  (s, match nodeCountViolation props with
      | Some m => inl (mkError m)
      | None => inr tt
      end).
Proof.
  unfold validateNodeCount, nodeCountViolation.
  destruct (Js.truthy (Js.and _ _)); [reflexivity|].
  destruct (Js.truthy (Js.ofBool (clusterModeEnabled props)));
    destruct (Js.isFalse (multiAzEnabled props));
    destruct (definedAndEq (numberOfNodeGroups props) 1);
    destruct (Js.isFalse (automaticFailoverEnabled props));
    destruct (Js.truthy (Js.ofBool (multiAzEnabled props)));
    destruct (definedAndLt (replicasPerNodeGroup props) 1);
    reflexivity.
Qed.

(** The constructor, step by step: the network children are registered,
    then the first violated check throws, else the resource is registered
    with its removal policy and the handle is returned. *)
Lemma construct_unfold (id : string) (props : ReplicationGroupProps) :
  construct id props =
  match violation props with
  | Some m => (networkChildren id props, inl (mkError m))
  | None =>
      (<["Resource" := CfnReplicationGroupChild (finalResource props)]>
         (networkChildren id props),
       inr (synthesizedHandle props))
  end.
Proof.
  pose proof (networkChildren_no_resource id props) as Hfresh.
  unfold construct, ReplicationGroup_constructor, violation.
  unfold finalResource, finalResourceProps, synthesizedHandle,
    usedSubnetGroup, usedSecurityGroups, networkChildren in *.
  unfold new_SubnetGroup, new_SecurityGroup, new_CfnReplicationGroup.
  destruct (subnetGroup props) as [g|], (securityGroups props) as [l|];
    cbn [Js.nullish] in *;
    repeat (rewrite bind_run;
            first [ rewrite addChild_fresh
                      by (repeat (rewrite lookup_insert_ne by discriminate);
                          apply lookup_empty)
                  | rewrite validateNodeCount_run
                  | idtac ];
            cbn [mret M_ret]).
  all: destruct (nodeCountViolation props); try reflexivity.
  all: destruct (Js.isFalse (atRestEncrypted props) && Js.isDefined (encryptionKey props));
    try reflexivity.
  all: cbn [when mret M_ret].
  all: repeat (rewrite bind_run; cbn [mret M_ret]).
  all: rewrite addChild_fresh by exact Hfresh.
  all: unfold applyRemovalPolicy; rewrite alter_insert_eq; reflexivity.
Qed.

Lemma resourceOf_networkChildren (id : string) (props : ReplicationGroupProps) :
  resourceOf (networkChildren id props) = None.
Proof. unfold resourceOf. rewrite networkChildren_no_resource. reflexivity. Qed.

Lemma resourceOf_insert (r : Cfn.ReplicationGroup) (s : gmap string Child) :
  resourceOf (<["Resource" := CfnReplicationGroupChild r]> s) = Some r.
Proof. unfold resourceOf. rewrite lookup_insert_eq. reflexivity. Qed.

(** A resource definition is produced exactly when no check fires, and it
    is the object literal of lines 393-418. *)
Lemma synthesized_eq (id : string) (props : ReplicationGroupProps) :
  synthesized id props =
  match violation props with
  | Some _ => None
  | None => Some (finalResourceProps props)
  end.
Proof.
  unfold synthesized. rewrite construct_unfold.
  destruct (violation props); cbn [fst].
  - rewrite resourceOf_networkChildren. reflexivity.
  - rewrite resourceOf_insert. reflexivity.
Qed.

Lemma synthesized_Some (id : string) (props : ReplicationGroupProps)
    (r : Cfn.ReplicationGroupProps) :
  synthesized id props = Some r →
  violation props = None ∧ r = finalResourceProps props.
Proof.
  rewrite synthesized_eq. destruct (violation props); [discriminate|].
  intros [= <-]. split; reflexivity.
Qed.

Lemma violation_None_nodeCount (props : ReplicationGroupProps) :
  violation props = None → nodeCountViolation props = None.
Proof. unfold violation. destruct (nodeCountViolation props); [discriminate|done]. Qed.

(** The children registered before validation are exactly the two defaults,
    each only when its property is absent. *)
Lemma networkChildren_lookup (id : string) (props : ReplicationGroupProps) (k : string) :
  networkChildren id props !! k =
  if decide (k = "SecurityGroup") then
    match securityGroups props with
    | Some _ => None
    | None => Some (defaultSecurityGroup props)
    end
  else if decide (k = "Subnets") then
    match subnetGroup props with
    | Some _ => None
    | None => Some (defaultSubnetGroup id props)
    end
  else None.
Proof.
  unfold networkChildren.
  destruct (subnetGroup props), (securityGroups props);
    repeat case_decide; subst; try discriminate;
    repeat first [ rewrite lookup_insert_eq
                 | rewrite lookup_insert_ne by congruence
                 | rewrite lookup_empty ];
    reflexivity.
Qed.

Lemma construct_children (id : string) (props : ReplicationGroupProps) (k : string) :
  k ≠ "Resource" →
  fst (construct id props) !! k = networkChildren id props !! k.
Proof.
  intros Hk. rewrite construct_unfold.
  destruct (violation props); cbn [fst]; [reflexivity|].
  rewrite lookup_insert_ne by congruence. reflexivity.
Qed.

(** The two defaulting expressions of lines 412-413, read with the
    precedence of [||] over [?:]. *)
Lemma numNodeGroups_resolved (props : ReplicationGroupProps) :
  Cfn.numNodeGroups (finalResourceProps props) =
  match numberOfNodeGroups props with
  | Some n =>
      if decide (n = 0)
      then (if Js.truthy (Js.ofBool (clusterModeEnabled props)) then 2 else 1)
      else 2
  | None => if Js.truthy (Js.ofBool (clusterModeEnabled props)) then 2 else 1
  end.
Proof.
  unfold finalResourceProps, resourceProps; cbn [Cfn.numNodeGroups].
  destruct (numberOfNodeGroups props) as [n|]; cbn; [|reflexivity].
  case_decide as Hn; subst; [reflexivity|].
  apply Z.eqb_neq in Hn. unfold Js.or; cbn. rewrite Hn; cbn. rewrite Hn. reflexivity.
Qed.

Lemma replicasPerNodeGroup_resolved (props : ReplicationGroupProps) :
  Cfn.replicasPerNodeGroup (finalResourceProps props) =
  match replicasPerNodeGroup props with
  | Some n =>
      if decide (n = 0)
      then (if Js.truthy (Js.ofBool (multiAzEnabled props)) then 1 else 0)
      else 1
  | None => if Js.truthy (Js.ofBool (multiAzEnabled props)) then 1 else 0
  end.
Proof.
  unfold finalResourceProps, resourceProps; cbn [Cfn.replicasPerNodeGroup].
  destruct (replicasPerNodeGroup props) as [n|]; cbn; [|reflexivity].
  case_decide as Hn; subst; [reflexivity|].
  apply Z.eqb_neq in Hn. unfold Js.or; cbn. rewrite Hn; cbn. rewrite Hn. reflexivity.
Qed.

(** ** The unit test [Instantiation works] *)

Example instantiation_works :
  snd (construct "rg" propsVpcOnly) = inr (synthesizedHandle propsVpcOnly) ∧
  synthesized "rg" propsVpcOnly =
    Some {| Cfn.replicationGroupDescription := "CDK generated replication group";
            Cfn.replicationGroupId := None;
            Cfn.securityGroupIds := [GetAtt "SecurityGroup" "GroupId"];
            Cfn.cacheSubnetGroupName := Ref "Subnets";
            Cfn.port := None;
            Cfn.cacheParameterGroupName := None;
            Cfn.preferredMaintenanceWindow := None;
            Cfn.cacheNodeType := "cache.t3.micro";
            Cfn.engine := "redis";
            Cfn.engineVersion := None;
            Cfn.snapshotWindow := None;
            Cfn.snapshotRetentionLimit := None;
            Cfn.automaticFailoverEnabled := Js.Bool false;
            Cfn.numCacheClusters := None;
            Cfn.numNodeGroups := 1;
            Cfn.replicasPerNodeGroup := 0;
            Cfn.multiAzEnabled := None;
            Cfn.kmsKeyId := None;
            Cfn.atRestEncryptionEnabled := true |} ∧
  (Cfn.deletionPolicy <$> resourceOf (fst (construct "rg" propsVpcOnly)))
    = Some (Some DESTROY) ∧
  fst (construct "rg" propsVpcOnly) !! "Subnets"
    = Some (SubnetGroupChild
              {| SubnetGroup.description :=
                   "Subnets for rg ElastiCache Replication Group";
                 SubnetGroup.vpc := testVpc;
                 SubnetGroup.vpcSubnets := {| ec2.subnetType := Some ec2.PRIVATE |};
                 SubnetGroup.removalPolicy := DESTROY |}).
Proof. repeat split; vm_compute; reflexivity. Qed.

(** ** Node groups and replicas (C1, C2) *)

(** C1, at the input [{ vpc, numberOfNodeGroups: 3, clusterModeEnabled: true }]:
    the construction succeeds and the resource definition carries 2 node
    groups, not the 3 that were supplied.  The claim asks for the supplied
    value. *)
Theorem C1_explicit_node_groups_not_kept :
  snd (construct "rg" propsThreeNodeGroups)
    = inr (synthesizedHandle propsThreeNodeGroups) ∧
  numberOfNodeGroups propsThreeNodeGroups = Some 3 ∧
  Cfn.numNodeGroups <$> synthesized "rg" propsThreeNodeGroups = Some 2.
Proof. repeat split; vm_compute; reflexivity. Qed.

(** C2, at the input [{ vpc, replicasPerNodeGroup: 3 }]: the construction
    succeeds and the resource definition carries 1 replica per node group,
    not the 3 that were supplied.  The claim asks for the supplied value. *)
Theorem C2_explicit_replicas_not_kept :
  snd (construct "rg" propsThreeReplicas)
    = inr (synthesizedHandle propsThreeReplicas) ∧
  replicasPerNodeGroup propsThreeReplicas = Some 3 ∧
  Cfn.replicasPerNodeGroup <$> synthesized "rg" propsThreeReplicas = Some 1.
Proof. repeat split; vm_compute; reflexivity. Qed.

(** ** Validation and the children already registered (C3) *)

(** C3, as stated, fails at [{ vpc, clusterModeEnabled: true,
    multiAzEnabled: false }]: the construction throws the cluster-mode
    error, and the default subnet group and the default security group are
    both registered under the construct by then. *)
Lemma C3_children_registered_before_error :
  snd (construct "rg" propsClusterWithoutMultiAz) = inl (mkError msgMultiAzCluster) ∧
  fst (construct "rg" propsClusterWithoutMultiAz) !! "Subnets"
    = Some (defaultSubnetGroup "rg" propsClusterWithoutMultiAz) ∧
  fst (construct "rg" propsClusterWithoutMultiAz) !! "SecurityGroup"
    = Some (defaultSecurityGroup propsClusterWithoutMultiAz).
Proof. repeat split; vm_compute; reflexivity. Qed.

(** C3, amended: for every properties object that violates a check, the
    construction throws the error of the first violated check and no
    replication-group resource is registered; the children registered at
    that point are exactly the default subnet group (when no subnet group
    was supplied) and the default security group (when no security groups
    were supplied), which are created before the checks run. *)
Theorem C3_error_before_resource (id : string) (props : ReplicationGroupProps)
    (m : string) :
  violation props = Some m →
  snd (construct id props) = inl (mkError m) ∧
  resourceOf (fst (construct id props)) = None ∧
  ∀ k : string,
    is_Some (fst (construct id props) !! k) ↔
    (k = "Subnets" ∧ subnetGroup props = None) ∨
    (k = "SecurityGroup" ∧ securityGroups props = None).
Proof.
  intros Hv. rewrite construct_unfold, Hv; cbn [fst snd].
  split; [reflexivity|]. split; [apply resourceOf_networkChildren|].
  intros k. rewrite networkChildren_lookup.
  destruct (decide (k = "SecurityGroup")) as [->|Hsg];
    [|destruct (decide (k = "Subnets")) as [->|Hsn]]; cbv iota.
  - destruct (securityGroups props) as [l|]; split.
    + intros [c Hc]; discriminate.
    + intros [[Hk _]|[_ Hn]]; discriminate.
    + intros _. right. split; reflexivity.
    + intros _. eexists; reflexivity.
  - destruct (subnetGroup props) as [g|]; split.
    + intros [c Hc]; discriminate.
    + intros [[_ Hn]|[Hk _]]; discriminate.
    + intros _. left. split; reflexivity.
    + intros _. eexists; reflexivity.
  - split.
    + intros [c Hc]; discriminate.
    + intros [[Hk _]|[Hk _]]; contradiction.
Qed.

Lemma C3_error_before_resource_witness :
  snd (construct "rg" propsClusterWithoutMultiAz) = inl (mkError msgMultiAzCluster) ∧
  resourceOf (fst (construct "rg" propsClusterWithoutMultiAz)) = None.
Proof.
  destruct (C3_error_before_resource "rg" propsClusterWithoutMultiAz msgMultiAzCluster)
    as (He & Hr & _); [vm_compute; reflexivity|].
  split; [exact He | exact Hr].
Defined.

(** ** Automatic failover (C4) *)

(** C4: whenever a resource definition is produced, its automatic-failover
    flag is the supplied [automaticFailoverEnabled] when there is one, and
    otherwise [clusterModeEnabled || multiAzEnabled]; it is [false] when none
    of the three is supplied. *)
Theorem C4_automatic_failover (id : string) (props : ReplicationGroupProps)
    (r : Cfn.ReplicationGroupProps) :
  synthesized id props = Some r →
  Cfn.automaticFailoverEnabled r =
    Js.Bool (match automaticFailoverEnabled props with
             | Some b => b
             | None => Js.truthy (Js.ofBool (clusterModeEnabled props))
                       || Js.truthy (Js.ofBool (multiAzEnabled props))
             end) ∧
  (automaticFailoverEnabled props = None → clusterModeEnabled props = None →
   multiAzEnabled props = None → Cfn.automaticFailoverEnabled r = Js.Bool false).
Proof.
  intros Hs. apply synthesized_Some in Hs as [Hv ->].
  apply violation_None_nodeCount in Hv.
  unfold nodeCountViolation in Hv.
  unfold finalResourceProps, resourceProps; cbn [Cfn.automaticFailoverEnabled].
  destruct (Js.truthy (Js.and _ _)); [discriminate|].
  destruct (definedAndEq _ _), (definedAndLt _ _);
    destruct (clusterModeEnabled props) as [[|]|],
             (automaticFailoverEnabled props) as [[|]|],
             (multiAzEnabled props) as [[|]|];
    cbn in Hv; try discriminate; split; try reflexivity; intros; discriminate.
Qed.

Lemma C4_automatic_failover_witness :
  Cfn.automaticFailoverEnabled (finalResourceProps propsFailoverOnly) = Js.Bool true.
Proof.
  apply (C4_automatic_failover "rg" propsFailoverOnly
           (finalResourceProps propsFailoverOnly)).
  vm_compute; reflexivity.
Defined.

(** ** The check on mutually exclusive topology fields (C5) *)

Lemma truthy_ofNum (o : option Z) : Js.truthy (Js.ofNum o) = true ↔ nonZero o.
Proof.
  unfold nonZero. destruct o as [z|]; cbn.
  - rewrite negb_true_iff, Z.eqb_neq. split; [eauto|]. by intros (? & [= <-] & ?).
  - split; [discriminate|]. by intros (? & [=] & _).
Qed.

Lemma truthy_and (a b : Js.Val) :
  Js.truthy (Js.and a b) = Js.truthy a && Js.truthy b.
Proof. unfold Js.and. destruct (Js.truthy a) eqn:E; cbn; [reflexivity|exact E]. Qed.

Lemma truthy_or (a b : Js.Val) :
  Js.truthy (Js.or a b) = Js.truthy a || Js.truthy b.
Proof. unfold Js.or. destruct (Js.truthy a) eqn:E; cbn; [exact E|reflexivity]. Qed.

(** C5, as stated, fails at [{ vpc, numberOfCacheClusters: 2,
    replicasPerNodeGroup: 0 }]: both fields are set, yet no error is thrown
    and the construction completes. *)
Lemma C5_zero_counts_as_unset :
  numberOfCacheClusters propsClustersAndZeroReplicas = Some 2 ∧
  replicasPerNodeGroup propsClustersAndZeroReplicas = Some 0 ∧
  snd (construct "rg" propsClustersAndZeroReplicas)
    = inr (synthesizedHandle propsClustersAndZeroReplicas).
Proof. repeat split; vm_compute; reflexivity. Qed.

(** C5, amended: the construction throws the error on mutually exclusive
    topology fields exactly when [numberOfCacheClusters] is supplied and not
    zero and at least one of [numberOfNodeGroups], [replicasPerNodeGroup] is
    supplied and not zero.  The check runs first: whenever it fires, its
    error is the one thrown, whatever else is violated. *)
Theorem C5_mutually_exclusive_exactly (id : string) (props : ReplicationGroupProps) :
  snd (construct id props) = inl (mkError msgNumCacheCluster) ↔
  nonZero (numberOfCacheClusters props) ∧
  (nonZero (numberOfNodeGroups props) ∨ nonZero (replicasPerNodeGroup props)).
Proof.
  rewrite <- !truthy_ofNum, <- orb_true_iff, <- truthy_or, <- andb_true_iff, <- truthy_and.
  rewrite construct_unfold. unfold violation, nodeCountViolation.
  destruct (Js.truthy (Js.and _ _)); [cbn; done|].
  split; [|discriminate].
  repeat (match goal with |- context [if ?c then _ else _] => destruct c end;
          cbn [snd]; try (intros [=]; fail)).
Qed.

Lemma C5_mutually_exclusive_exactly_witness :
  snd (construct "rg" propsClustersAndNodeGroups) = inl (mkError msgNumCacheCluster).
Proof.
  apply (C5_mutually_exclusive_exactly "rg" propsClustersAndNodeGroups).
  split; [exists 2 | left; exists 1]; split; (reflexivity || lia).
Defined.

(** ** The encryption key check (C6) *)

(** C6: with [atRestEncrypted: false] and an encryption key, the
    construction throws whatever the other properties are, and no
    replication-group resource is registered; when [validateNodeCount] has
    nothing to report the error is the one on the encryption key. *)
Theorem C6_key_without_encryption (id : string) (props : ReplicationGroupProps)
    (key : kms.IKey) :
  atRestEncrypted props = Some false →
  encryptionKey props = Some key →
  (∃ e : Error, snd (construct id props) = inl e) ∧
  synthesized id props = None ∧
  (nodeCountViolation props = None →
   snd (construct id props) = inl (mkError msgEncryptionKey)).
Proof.
  intros Ha Hk. rewrite synthesized_eq, construct_unfold.
  unfold violation. rewrite Ha, Hk; cbn [Js.isFalse Js.isDefined andb].
  destruct (nodeCountViolation props); cbn [snd];
    (split; [eexists; reflexivity|]); split; try reflexivity; intros [=].
Qed.

Lemma C6_key_without_encryption_witness :
  snd (construct "ReplicationGroup" propsKeyWithoutEncryption)
    = inl (mkError msgEncryptionKey).
Proof.
  apply (C6_key_without_encryption "ReplicationGroup" propsKeyWithoutEncryption testKey);
    reflexivity.
Defined.

(** ** Multi-AZ defaults (C7) *)

(** C7: when [multiAzEnabled: true] is the only topology property supplied
    (and the encryption properties do not conflict), the construction
    produces a resource definition with one node group, one replica per node
    group, automatic failover enabled and [multiAzEnabled: true]. *)
Theorem C7_multi_az_defaults (id : string) (props : ReplicationGroupProps) :
  multiAzEnabled props = Some true →
  numberOfNodeGroups props = None →
  numberOfCacheClusters props = None →
  replicasPerNodeGroup props = None →
  automaticFailoverEnabled props = None →
  clusterModeEnabled props = None →
  Js.isFalse (atRestEncrypted props) && Js.isDefined (encryptionKey props) = false →
  ∃ r : Cfn.ReplicationGroupProps,
    synthesized id props = Some r ∧
    Cfn.numNodeGroups r = 1 ∧
    Cfn.replicasPerNodeGroup r = 1 ∧
    Cfn.automaticFailoverEnabled r = Js.Bool true ∧
    Cfn.multiAzEnabled r = Some true.
Proof.
  intros Hm Hn Hc Hr Ha Hcl He.
  exists (finalResourceProps props).
  rewrite synthesized_eq. unfold violation, nodeCountViolation.
  rewrite He, Hm, Hn, Hc, Hr, Ha, Hcl; cbn.
  unfold finalResourceProps, resourceProps; cbn.
  rewrite Hm, Hn, Hr, Ha, Hcl; cbn.
  repeat split; reflexivity.
Qed.

Lemma C7_multi_az_defaults_witness :
  ∃ r : Cfn.ReplicationGroupProps,
    synthesized "rg" propsMultiAz = Some r ∧
    Cfn.numNodeGroups r = 1 ∧
    Cfn.replicasPerNodeGroup r = 1 ∧
    Cfn.automaticFailoverEnabled r = Js.Bool true ∧
    Cfn.multiAzEnabled r = Some true.
Proof. apply (C7_multi_az_defaults "rg" propsMultiAz); reflexivity. Defined.

(** ** Importing an existing replication group (C8) *)

(** C8: for every attribute set the import completes, registers nothing
    under the imported construct, and yields a handle whose id and two
    endpoints are the supplied values and whose connections have the
    supplied primary port as default port and the supplied security
    groups. *)
Theorem C8_import_verbatim (id : string) (attrs : Attrs.ReplicationGroupAttributes) :
  ∃ h : Import,
    import id attrs = (∅, inr h) ∧
    replicationGroupId h = Attrs.replicationGroupId attrs ∧
    endpoint.hostname (primaryEndpoint h) = Attrs.primaryEndpointAddress attrs ∧
    endpoint.port (primaryEndpoint h) = Attrs.primaryEndpointPort attrs ∧
    endpoint.hostname (readerEndpoint h) = Attrs.readerEndpointAddress attrs ∧
    endpoint.port (readerEndpoint h) = Attrs.readerEndpointPort attrs ∧
    ec2.defaultPort (connections h) = ec2.tcp (Attrs.primaryEndpointPort attrs) ∧
    ec2.securityGroups (connections h) = Attrs.securityGroups attrs.
Proof. eexists. split; [reflexivity|]. cbn. repeat split; reflexivity. Qed.

Example import_port_zero :
  ∃ h : Import,
    snd (import "rg" attrsPortZero) = inr h ∧
    endpoint.port (primaryEndpoint h) = NumLit 0 ∧
    ec2.defaultPort (connections h) = ec2.tcp (NumLit 0).
Proof. eexists. repeat split; reflexivity. Qed.

(** ** Removal policy of the children (C9) *)

(** C9, as stated, fails at [{ vpc, removalPolicy: RemovalPolicy.RETAIN }]:
    the default security group is created and carries no removal policy,
    where the claim asks for the configured one. *)
Lemma C9_security_group_without_policy :
  ∃ c : Child,
    fst (construct "rg" propsRetain) !! "SecurityGroup" = Some c ∧
    isDefaultChild c = true ∧
    childRemovalPolicy c ≠ Some RETAIN.
Proof. eexists. split; [vm_compute; reflexivity|]. split; [reflexivity|discriminate]. Qed.

(** C9, amended: of the children found under the construct, a subnet group
    is the default one, created when none was supplied, and has the
    configured removal policy (destroy when none is configured); the
    replication-group resource has that policy as deletion and as
    update-replace policy; a security group is the default one, created
    when none was supplied from a description and the vpc only, and carries
    no removal policy. *)
Theorem C9_removal_policy_of_children (id : string) (props : ReplicationGroupProps)
    (k : string) (c : Child) :
  fst (construct id props) !! k = Some c →
  match c with
  | SubnetGroupChild p =>
      k = "Subnets" ∧ subnetGroup props = None ∧
      SubnetGroup.removalPolicy p = Js.nullish (removalPolicy props) DESTROY
  | SecurityGroupChild p =>
      k = "SecurityGroup" ∧ securityGroups props = None ∧
      p = {| ec2.description := "ElastiCache SG"; ec2.vpc := vpc props |} ∧
      childRemovalPolicy c = None
  | CfnReplicationGroupChild r =>
      k = "Resource" ∧
      Cfn.deletionPolicy r = Some (Js.nullish (removalPolicy props) DESTROY) ∧
      Cfn.updateReplacePolicy r = Some (Js.nullish (removalPolicy props) DESTROY)
  end.
Proof.
  destruct (decide (k = "Resource")) as [->|Hk].
  - rewrite construct_unfold. destruct (violation props); cbn [fst].
    + rewrite networkChildren_no_resource. discriminate.
    + rewrite lookup_insert_eq. intros [= <-]. repeat split; reflexivity.
  - rewrite construct_children by exact Hk. rewrite networkChildren_lookup.
    destruct (decide (k = "SecurityGroup")) as [->|Hsg];
      [|destruct (decide (k = "Subnets")) as [->|Hsn]]; cbv iota.
    + destruct (securityGroups props); [discriminate|].
      intros [= <-]. repeat split; reflexivity.
    + destruct (subnetGroup props); [discriminate|].
      intros [= <-]. repeat split; reflexivity.
    + discriminate.
Qed.

Lemma C9_removal_policy_of_children_witness :
  fst (construct "rg" propsRetain) !! "Subnets" = Some (defaultSubnetGroup "rg" propsRetain) ∧
  childRemovalPolicy (defaultSubnetGroup "rg" propsRetain) = Some RETAIN.
Proof.
  split; [vm_compute; reflexivity|].
  pose proof (C9_removal_policy_of_children "rg" propsRetain "Subnets"
                (defaultSubnetGroup "rg" propsRetain)) as H.
  cbn [defaultSubnetGroup childRemovalPolicy] in *.
  destruct H as (_ & _ & H); [vm_compute; reflexivity|].
  exact (f_equal Some H).
Defined.

(** ** Defaults apply to absent properties only (C10) *)

(** C10: the default security group is registered exactly when
    [securityGroups] is absent and the default subnet group exactly when
    [subnetGroup] is absent; with [securityGroups: []] no security group is
    created and the resource definition lists no security-group id. *)
Theorem C10_defaults_only_when_absent (id : string) (props : ReplicationGroupProps) :
  (is_Some (fst (construct id props) !! "SecurityGroup") ↔ securityGroups props = None) ∧
  (is_Some (fst (construct id props) !! "Subnets") ↔ subnetGroup props = None) ∧
  (securityGroups props = Some [] →
   fst (construct id props) !! "SecurityGroup" = None ∧
   ∀ r : Cfn.ReplicationGroupProps,
     synthesized id props = Some r → Cfn.securityGroupIds r = []).
Proof.
  rewrite !construct_children by discriminate.
  rewrite !networkChildren_lookup; cbn.
  split; [|split].
  - destruct (securityGroups props); split; intros H;
      first [ reflexivity | discriminate | by destruct H | by eexists ].
  - destruct (subnetGroup props); split; intros H;
      first [ reflexivity | discriminate | by destruct H | by eexists ].
  - intros Hs. rewrite Hs. split; [reflexivity|].
    intros r Hr. apply synthesized_Some in Hr as [_ ->].
    unfold finalResourceProps, resourceProps, usedSecurityGroups; cbn.
    rewrite Hs. reflexivity.
Qed.

Lemma C10_defaults_only_when_absent_witness :
  fst (construct "rg" propsNoSecurityGroups) !! "SecurityGroup" = None ∧
  Cfn.securityGroupIds <$> synthesized "rg" propsNoSecurityGroups = Some [].
Proof.
  destruct (C10_defaults_only_when_absent "rg" propsNoSecurityGroups)
    as (_ & _ & H).
  destruct (H eq_refl) as [Hnone Hids].
  split; [exact Hnone|].
  assert (synthesized "rg" propsNoSecurityGroups
          = Some (finalResourceProps propsNoSecurityGroups)) as E
    by (vm_compute; reflexivity).
  rewrite E. exact (f_equal Some (Hids _ E)).
Defined.

(** ** Reading the checks as statements about the properties *)

Lemma truthy_ofBool (o : option bool) : Js.truthy (Js.ofBool o) = true ↔ o = Some true.
Proof. destruct o as [[|]|]; cbn; split; congruence. Qed.

Lemma isFalse_iff (o : option bool) : Js.isFalse o = true ↔ o = Some false.
Proof. destruct o as [[|]|]; cbn; split; congruence. Qed.

Lemma isDefined_iff {A : Type} (o : option A) : Js.isDefined o = true ↔ is_Some o.
Proof.
  destruct o; cbn; split; try discriminate; eauto.
  intros [? [=]].
Qed.

Lemma definedAndEq_iff (o : option Z) (k : Z) : definedAndEq o k = true ↔ o = Some k.
Proof.
  destruct o as [z|]; cbn; [|split; discriminate].
  rewrite Z.eqb_eq. split; congruence.
Qed.

Lemma definedAndLt_iff (o : option Z) (k : Z) :
  definedAndLt o k = true ↔ ∃ n : Z, o = Some n ∧ (n < k)%Z.
Proof.
  destruct o as [z|]; cbn.
  - rewrite Z.ltb_lt. split; [eauto|]. by intros (? & [= <-] & ?).
  - split; [discriminate|]. by intros (? & [=] & _).
Qed.

Lemma clash_iff (props : ReplicationGroupProps) :
  Js.truthy (Js.and (Js.ofNum (numberOfCacheClusters props))
                    (Js.or (Js.ofNum (numberOfNodeGroups props))
                           (Js.ofNum (replicasPerNodeGroup props)))) = true
  ↔ exclusiveFieldsClash props.
Proof.
  unfold exclusiveFieldsClash.
  rewrite truthy_and, andb_true_iff, truthy_or, orb_true_iff, !truthy_ofNum.
  reflexivity.
Qed.

Lemma construct_ok_iff (id : string) (props : ReplicationGroupProps) :
  snd (construct id props) = inr (synthesizedHandle props) ↔ violation props = None.
Proof.
  rewrite construct_unfold. destruct (violation props); cbn [snd]; split; congruence.
Qed.

Lemma construct_error_iff (id : string) (props : ReplicationGroupProps) (m : string) :
  snd (construct id props) = inl (mkError m) ↔ violation props = Some m.
Proof.
  rewrite construct_unfold. destruct (violation props); cbn [snd]; split; congruence.
Qed.

(** The checks, with every test replaced by what it says of the
    properties. *)
Lemma violation_cases (props : ReplicationGroupProps) :
  (exclusiveFieldsClash props ∧ violation props = Some msgNumCacheCluster) ∨
  (¬ exclusiveFieldsClash props ∧
   ((clusterModeEnabled props = Some true ∧ multiAzEnabled props = Some false ∧
     violation props = Some msgMultiAzCluster) ∨
    (¬ (clusterModeEnabled props = Some true ∧ multiAzEnabled props = Some false) ∧
     ((clusterModeEnabled props = Some true ∧ numberOfNodeGroups props = Some 1 ∧
       violation props = Some msgNodeGroups) ∨
      (¬ (clusterModeEnabled props = Some true ∧ numberOfNodeGroups props = Some 1) ∧
       ((clusterModeEnabled props = Some true ∧
         automaticFailoverEnabled props = Some false ∧
         violation props = Some msgFailoverCluster) ∨
        (¬ (clusterModeEnabled props = Some true ∧
            automaticFailoverEnabled props = Some false) ∧
         ((multiAzEnabled props = Some true ∧
           automaticFailoverEnabled props = Some false ∧
           violation props = Some msgFailoverMultiAz) ∨
          (¬ (multiAzEnabled props = Some true ∧
              automaticFailoverEnabled props = Some false) ∧
           ((multiAzEnabled props = Some true ∧
             (∃ n : Z, replicasPerNodeGroup props = Some n ∧ (n < 1)%Z) ∧
             violation props = Some msgReplica) ∨
            (¬ (multiAzEnabled props = Some true ∧
                ∃ n : Z, replicasPerNodeGroup props = Some n ∧ (n < 1)%Z) ∧
             ((atRestEncrypted props = Some false ∧ is_Some (encryptionKey props) ∧
               violation props = Some msgEncryptionKey) ∨
              (¬ (atRestEncrypted props = Some false ∧ is_Some (encryptionKey props)) ∧
               violation props = None))))))))))))).
Proof.
  unfold violation, nodeCountViolation.
  rewrite <- clash_iff, <- !truthy_ofBool, <- !isFalse_iff, <- definedAndEq_iff,
    <- definedAndLt_iff, <- isDefined_iff.
  destruct (Js.truthy (Js.and _ _)); [left; done|right; split; [done|]].
  destruct (Js.truthy (Js.ofBool (clusterModeEnabled props)));
    destruct (Js.isFalse (multiAzEnabled props));
    destruct (definedAndEq (numberOfNodeGroups props) 1);
    destruct (Js.isFalse (automaticFailoverEnabled props));
    destruct (Js.truthy (Js.ofBool (multiAzEnabled props)));
    destruct (definedAndLt (replicasPerNodeGroup props) 1);
    destruct (Js.isFalse (atRestEncrypted props));
    destruct (Js.isDefined (encryptionKey props));
    cbn; intuition congruence.
Qed.

Lemma at_least_one_iff (o : option Z) :
  (∀ n : Z, o = Some n → (1 ≤ n)%Z) ↔ ¬ ∃ n : Z, o = Some n ∧ (n < 1)%Z.
Proof.
  split.
  - intros H (n & Hn & Hlt). specialize (H n Hn). lia.
  - intros H n Hn. destruct (Z_lt_le_dec n 1); [|done]. destruct H; eauto.
Qed.

Lemma violation_None_iff (props : ReplicationGroupProps) :
  violation props = None ↔ accepted props.
Proof.
  unfold accepted. rewrite at_least_one_iff.
  pose proof (violation_cases props) as H.
  intuition congruence.
Qed.

(** ** Acceptance and the error thrown (X1-X5) *)

(** X1: a construction completes exactly when no rule is violated:
    [numberOfCacheClusters] is not in use together with one of the two other
    counts; under cluster mode, multi-AZ and automatic failover are not
    switched off and the number of node groups is not 1; under multi-AZ,
    automatic failover is not switched off and a supplied number of replicas
    is at least 1; no key comes with encryption switched off. *)
Theorem X1_accepted_exactly (id : string) (props : ReplicationGroupProps) :
  snd (construct id props) = inr (synthesizedHandle props) ↔ accepted props.
Proof. rewrite construct_ok_iff. apply violation_None_iff. Qed.

Lemma X1_accepted_exactly_witness :
  snd (construct "rg" propsClusterMode) = inr (synthesizedHandle propsClusterMode).
Proof.
  apply (X1_accepted_exactly "rg" propsClusterMode).
  unfold accepted, exclusiveFieldsClash, nonZero; cbn.
  repeat split; try discriminate.
  - intros [(z & [=] & _) _].
  - intros [[=] _].
Defined.



(** X3: the error on the number of node groups is thrown exactly when
    cluster mode is on, [numberOfNodeGroups] is 1, multi-AZ is not switched
    off and the counts do not clash.  No other number of node groups is
    refused under cluster mode. *)
Theorem X3_node_groups_error_exactly (id : string) (props : ReplicationGroupProps) :
  snd (construct id props) = inl (mkError msgNodeGroups) ↔
  ¬ exclusiveFieldsClash props ∧
  clusterModeEnabled props = Some true ∧
  multiAzEnabled props ≠ Some false ∧
  numberOfNodeGroups props = Some 1.
Proof.
  rewrite construct_error_iff.
  pose proof (violation_cases props) as H.
  other_messages msgNodeGroups.
  intuition congruence.
Qed.

Lemma X3_node_groups_error_exactly_witness :
  snd (construct "rg" propsClusterOneNodeGroup) = inl (mkError msgNodeGroups).
Proof.
  apply (X3_node_groups_error_exactly "rg" propsClusterOneNodeGroup).
  unfold exclusiveFieldsClash, nonZero; cbn.
  repeat split; try discriminate.
  intros [(z & [=] & _) _].
Defined.

(** X4: the error on replicas is thrown exactly when multi-AZ is on, a
    number of replicas below 1 is supplied (zero and negative numbers
    alike), automatic failover is not switched off, the counts do not clash
    and, under cluster mode, the number of node groups is not 1. *)
Theorem X4_replica_error_exactly (id : string) (props : ReplicationGroupProps) :
  snd (construct id props) = inl (mkError msgReplica) ↔
  ¬ exclusiveFieldsClash props ∧
  multiAzEnabled props = Some true ∧
  automaticFailoverEnabled props ≠ Some false ∧
  (clusterModeEnabled props = Some true → numberOfNodeGroups props ≠ Some 1) ∧
  ∃ n : Z, replicasPerNodeGroup props = Some n ∧ (n < 1)%Z.
Proof.
  rewrite construct_error_iff.
  pose proof (violation_cases props) as H.
  other_messages msgReplica.
  intuition congruence.
Qed.

Lemma X4_replica_error_exactly_witness :
  snd (construct "rg" propsMultiAzNoReplica) = inl (mkError msgReplica).
Proof.
  apply (X4_replica_error_exactly "rg" propsMultiAzNoReplica).
  unfold exclusiveFieldsClash, nonZero; cbn.
  repeat split; try discriminate.
  - intros [(z & [=] & _) _].
  - exists 0. split; [reflexivity|lia].
Defined.

(** X5: the multi-AZ error on automatic failover is thrown exactly when
    multi-AZ is on, automatic failover is switched off, cluster mode is not
    on and the counts do not clash; under cluster mode the cluster-mode
    error comes first. *)
Theorem X5_failover_multi_az_error_exactly (id : string) (props : ReplicationGroupProps) :
  snd (construct id props) = inl (mkError msgFailoverMultiAz) ↔
  ¬ exclusiveFieldsClash props ∧
  clusterModeEnabled props ≠ Some true ∧
  multiAzEnabled props = Some true ∧
  automaticFailoverEnabled props = Some false.
Proof.
  rewrite construct_error_iff.
  pose proof (violation_cases props) as H.
  other_messages msgFailoverMultiAz.
  intuition congruence.
Qed.

Lemma X5_failover_multi_az_error_exactly_witness :
  snd (construct "rg" propsMultiAzNoFailover) = inl (mkError msgFailoverMultiAz).
Proof.
  apply (X5_failover_multi_az_error_exactly "rg" propsMultiAzNoFailover).
  unfold exclusiveFieldsClash, nonZero; cbn.
  repeat split; try discriminate.
  intros [(z & [=] & _) _].
Defined.

(** ** The resource definition of an accepted properties object (X6-X11) *)

(** X6: the number of node groups of a resource definition is 1 or 2: it is
    2 when [numberOfNodeGroups] is supplied and not zero or cluster mode is
    on, and 1 otherwise. *)
Theorem X6_node_groups_one_or_two (id : string) (props : ReplicationGroupProps)
    (r : Cfn.ReplicationGroupProps) :
  synthesized id props = Some r →
  (nonZero (numberOfNodeGroups props) ∨ clusterModeEnabled props = Some true →
   Cfn.numNodeGroups r = 2) ∧
  (¬ (nonZero (numberOfNodeGroups props) ∨ clusterModeEnabled props = Some true) →
   Cfn.numNodeGroups r = 1).
Proof.
  intros Hs. apply synthesized_Some in Hs as [_ ->].
  rewrite <- truthy_ofNum, <- truthy_ofBool, <- orb_true_iff, <- truthy_or.
  unfold finalResourceProps, resourceProps; cbn [Cfn.numNodeGroups].
  destruct (Js.truthy (Js.or _ _)); split; intros H; congruence.
Qed.

Lemma X6_node_groups_one_or_two_witness :
  Cfn.numNodeGroups (finalResourceProps propsClusterMode) = 2.
Proof.
  apply (X6_node_groups_one_or_two "rg" propsClusterMode);
    [vm_compute; reflexivity | right; reflexivity].
Defined.

(** X7: the number of replicas per node group of a resource definition is 0
    or 1: it is 1 when [replicasPerNodeGroup] is supplied and not zero or
    multi-AZ is on, and 0 otherwise. *)
Theorem X7_replicas_zero_or_one (id : string) (props : ReplicationGroupProps)
    (r : Cfn.ReplicationGroupProps) :
  synthesized id props = Some r →
  (nonZero (replicasPerNodeGroup props) ∨ multiAzEnabled props = Some true →
   Cfn.replicasPerNodeGroup r = 1) ∧
  (¬ (nonZero (replicasPerNodeGroup props) ∨ multiAzEnabled props = Some true) →
   Cfn.replicasPerNodeGroup r = 0).
Proof.
  intros Hs. apply synthesized_Some in Hs as [_ ->].
  rewrite <- truthy_ofNum, <- truthy_ofBool, <- orb_true_iff, <- truthy_or.
  unfold finalResourceProps, resourceProps; cbn [Cfn.replicasPerNodeGroup].
  destruct (Js.truthy (Js.or _ _)); split; intros H; congruence.
Qed.

Lemma X7_replicas_zero_or_one_witness :
  Cfn.replicasPerNodeGroup (finalResourceProps propsMultiAz) = 1.
Proof.
  apply (X7_replicas_zero_or_one "rg" propsMultiAz);
    [vm_compute; reflexivity | right; reflexivity].
Defined.

Lemma synthesized_accepted (id : string) (props : ReplicationGroupProps)
    (r : Cfn.ReplicationGroupProps) :
  synthesized id props = Some r → accepted props.
Proof.
  intros Hs. apply synthesized_Some in Hs as [Hv _].
  apply violation_None_iff, Hv.
Qed.

(** X8: under cluster mode every resource definition has two node groups
    and automatic failover enabled. *)
Theorem X8_cluster_mode_topology (id : string) (props : ReplicationGroupProps)
    (r : Cfn.ReplicationGroupProps) :
  synthesized id props = Some r →
  clusterModeEnabled props = Some true →
  Cfn.numNodeGroups r = 2 ∧ Cfn.automaticFailoverEnabled r = Js.Bool true.
Proof.
  intros Hs Hc. apply synthesized_Some in Hs as [_ ->].
  unfold finalResourceProps, resourceProps;
    cbn [Cfn.numNodeGroups Cfn.automaticFailoverEnabled].
  rewrite Hc. split.
  - rewrite truthy_or. cbn. rewrite orb_true_r. reflexivity.
  - reflexivity.
Qed.

Lemma X8_cluster_mode_topology_witness :
  Cfn.numNodeGroups (finalResourceProps propsClusterMode) = 2 ∧
  Cfn.automaticFailoverEnabled (finalResourceProps propsClusterMode) = Js.Bool true.
Proof.
  apply (X8_cluster_mode_topology "rg" propsClusterMode);
    [vm_compute; reflexivity | reflexivity].
Defined.

(** X9: under multi-AZ every resource definition has one replica per node
    group, automatic failover enabled and [multiAzEnabled: true], whatever
    the other properties are. *)
Theorem X9_multi_az_topology (id : string) (props : ReplicationGroupProps)
    (r : Cfn.ReplicationGroupProps) :
  synthesized id props = Some r →
  multiAzEnabled props = Some true →
  Cfn.replicasPerNodeGroup r = 1 ∧
  Cfn.automaticFailoverEnabled r = Js.Bool true ∧
  Cfn.multiAzEnabled r = Some true.
Proof.
  intros Hs Hm.
  pose proof (synthesized_accepted _ _ _ Hs) as (_ & _ & Hmulti & _).
  destruct (Hmulti Hm) as [Hauto _].
  apply synthesized_Some in Hs as [_ ->].
  unfold finalResourceProps, resourceProps;
    cbn [Cfn.replicasPerNodeGroup Cfn.automaticFailoverEnabled Cfn.multiAzEnabled].
  rewrite Hm. split; [|split; [|reflexivity]].
  - rewrite truthy_or. cbn. rewrite orb_true_r. reflexivity.
  - destruct (clusterModeEnabled props) as [[|]|],
             (automaticFailoverEnabled props) as [[|]|];
      try reflexivity; congruence.
Qed.

Lemma X9_multi_az_topology_witness :
  Cfn.replicasPerNodeGroup (finalResourceProps propsMultiAz) = 1 ∧
  Cfn.automaticFailoverEnabled (finalResourceProps propsMultiAz) = Js.Bool true ∧
  Cfn.multiAzEnabled (finalResourceProps propsMultiAz) = Some true.
Proof.
  apply (X9_multi_az_topology "rg" propsMultiAz);
    [vm_compute; reflexivity | reflexivity].
Defined.

(** X10: in a resource definition the key id is the ARN of the supplied key
    and is absent when no key is supplied; encryption at rest is the
    supplied flag and is on when none is supplied; a resource definition
    with a key id always has encryption at rest on. *)
Theorem X10_encryption_fields (id : string) (props : ReplicationGroupProps)
    (r : Cfn.ReplicationGroupProps) :
  synthesized id props = Some r →
  Cfn.kmsKeyId r = kms.keyArn <$> encryptionKey props ∧
  Cfn.atRestEncryptionEnabled r = default true (atRestEncrypted props) ∧
  (is_Some (Cfn.kmsKeyId r) → Cfn.atRestEncryptionEnabled r = true).
Proof.
  intros Hs.
  pose proof (synthesized_accepted _ _ _ Hs) as (_ & _ & _ & Henc).
  apply synthesized_Some in Hs as [_ ->].
  unfold finalResourceProps, resourceProps;
    cbn [Cfn.kmsKeyId Cfn.atRestEncryptionEnabled].
  destruct (encryptionKey props) as [key|], (atRestEncrypted props) as [[|]|];
    cbn; repeat split; try reflexivity; intros [k Hk]; try discriminate.
  destruct Henc. split; [reflexivity|eauto].
Qed.

Lemma X10_encryption_fields_witness :
  Cfn.kmsKeyId (finalResourceProps propsWithKey) = Some (GetAtt "kms-key" "Arn") ∧
  Cfn.atRestEncryptionEnabled (finalResourceProps propsWithKey) = true.
Proof.
  destruct (X10_encryption_fields "rg" propsWithKey (finalResourceProps propsWithKey))
    as (Hk & He & _); [vm_compute; reflexivity|].
  split; [exact Hk | exact He].
Defined.

(** X11: the description of a resource definition is never empty: a
    supplied, non-empty description is kept, and an absent or empty one is
    replaced by the generated text. *)
Theorem X11_description_never_empty (id : string) (props : ReplicationGroupProps)
    (r : Cfn.ReplicationGroupProps) :
  synthesized id props = Some r →
  Cfn.replicationGroupDescription r ≠ "" ∧
  (∀ d : string, description props = Some d → d ≠ "" →
     Cfn.replicationGroupDescription r = d) ∧
  (description props = None ∨ description props = Some "" →
     Cfn.replicationGroupDescription r = "CDK generated replication group").
Proof.
  intros Hs. apply synthesized_Some in Hs as [_ ->].
  unfold finalResourceProps, resourceProps; cbn [Cfn.replicationGroupDescription].
  unfold Js.orString.
  destruct (description props) as [d|]; [destruct (decide (d = "")) as [->|Hd]|].
  - split; [discriminate|]. split; [intros ? [= <-] ?; done|done].
  - split; [exact Hd|]. split; [by intros ? [= <-] _|].
    intros [[=]|[= ->]]; done.
  - split; [discriminate|]. split; [intros ? [=]|done].
Qed.

Lemma X11_description_never_empty_witness :
  Cfn.replicationGroupDescription (finalResourceProps propsVpcOnly)
    = "CDK generated replication group".
Proof.
  apply (X11_description_never_empty "rg" propsVpcOnly);
    [vm_compute; reflexivity | left; reflexivity].
Defined.

(** ** The tree and the handle of a completed construction (X12-X15) *)

Lemma construct_ok (id : string) (props : ReplicationGroupProps) (h : IReplicationGroup) :
  snd (construct id props) = inr h →
  violation props = None ∧ h = synthesizedHandle props ∧
  fst (construct id props) =
    <["Resource" := CfnReplicationGroupChild (finalResource props)]>
      (networkChildren id props).
Proof.
  rewrite construct_unfold. destruct (violation props); cbn [fst snd]; [discriminate|].
  intros [= <-]. repeat split; reflexivity.
Qed.

(** X12: a resource definition names the supplied subnet group, and then no
    subnet group is registered; without one it refers to the child
    ['Subnets'], which is registered with the vpc of the properties, the
    supplied subnet selection or else the private subnets, and a description
    that names the replication group. *)
Theorem X12_subnet_group_reference (id : string) (props : ReplicationGroupProps)
    (r : Cfn.ReplicationGroupProps) :
  synthesized id props = Some r →
  match subnetGroup props with
  | Some g =>
      Cfn.cacheSubnetGroupName r = SubnetGroup.subnetGroupName g ∧
      fst (construct id props) !! "Subnets" = None
  | None =>
      Cfn.cacheSubnetGroupName r = Ref "Subnets" ∧
      fst (construct id props) !! "Subnets" =
        Some (SubnetGroupChild
                {| SubnetGroup.description :=
                     "Subnets for " ++ id ++ " ElastiCache Replication Group";
                   SubnetGroup.vpc := vpc props;
                   SubnetGroup.vpcSubnets :=
                     default {| ec2.subnetType := Some ec2.PRIVATE |} (vpcSubnets props);
                   SubnetGroup.removalPolicy := default DESTROY (removalPolicy props) |})
  end.
Proof.
  intros Hs. apply synthesized_Some in Hs as [_ ->].
  rewrite construct_children by discriminate.
  rewrite networkChildren_lookup; cbn.
  unfold finalResourceProps, resourceProps, usedSubnetGroup; cbn [Cfn.cacheSubnetGroupName].
  destruct (subnetGroup props); cbn; split; reflexivity.
Qed.

Lemma X12_subnet_group_reference_witness :
  Cfn.cacheSubnetGroupName (finalResourceProps propsWithSubnetGroup)
    = Lit "my-existing-ReplicationGroup-subnet-group" ∧
  fst (construct "ReplicationGroup" propsWithSubnetGroup) !! "Subnets" = None.
Proof.
  apply (X12_subnet_group_reference "ReplicationGroup" propsWithSubnetGroup
           (finalResourceProps propsWithSubnetGroup)).
  vm_compute; reflexivity.
Defined.

(** X13: the security-group ids of a resource definition are the ids of the
    security groups of the handle's connections, in order.  These are the
    supplied groups, and then no security group is registered; without any
    they are the single child ['SecurityGroup'], registered with the vpc of
    the properties. *)
Theorem X13_security_groups_agree (id : string) (props : ReplicationGroupProps)
    (h : IReplicationGroup) :
  snd (construct id props) = inr h →
  ∃ (r : Cfn.ReplicationGroupProps) (sgs : list ec2.ISecurityGroup),
    synthesized id props = Some r ∧
    ec2.securityGroups (connections h) = Some sgs ∧
    Cfn.securityGroupIds r = ec2.securityGroupId <$> sgs ∧
    match securityGroups props with
    | Some l => sgs = l ∧ fst (construct id props) !! "SecurityGroup" = None
    | None =>
        ec2.securityGroupId <$> sgs = [GetAtt "SecurityGroup" "GroupId"] ∧
        fst (construct id props) !! "SecurityGroup" =
          Some (SecurityGroupChild
                  {| ec2.description := "ElastiCache SG"; ec2.vpc := vpc props |})
    end.
Proof.
  intros Hc. apply construct_ok in Hc as (Hv & -> & _).
  exists (finalResourceProps props), (usedSecurityGroups props).
  rewrite synthesized_eq, Hv.
  rewrite construct_children by discriminate.
  rewrite networkChildren_lookup; cbn.
  repeat split.
  unfold usedSecurityGroups. destruct (securityGroups props); cbn; split; reflexivity.
Qed.

Lemma X13_security_groups_agree_witness :
  ∃ (r : Cfn.ReplicationGroupProps) (sgs : list ec2.ISecurityGroup),
    synthesized "ReplicationGroup" propsWithSecurityGroup = Some r ∧
    ec2.securityGroups (connections (synthesizedHandle propsWithSecurityGroup)) = Some sgs ∧
    Cfn.securityGroupIds r = ec2.securityGroupId <$> sgs ∧
    sgs = [testSecurityGroup] ∧
    fst (construct "ReplicationGroup" propsWithSecurityGroup) !! "SecurityGroup" = None.
Proof.
  apply (X13_security_groups_agree "ReplicationGroup" propsWithSecurityGroup).
  vm_compute; reflexivity.
Defined.

(** X14: a completed construction leaves under the construct the resource
    ['Resource'], holding the resource definition, and besides it only the
    default subnet group and the default security group, each exactly when
    its property is absent. *)
Theorem X14_children_on_success (id : string) (props : ReplicationGroupProps)
    (h : IReplicationGroup) :
  snd (construct id props) = inr h →
  (∃ r : Cfn.ReplicationGroup,
     fst (construct id props) !! "Resource" = Some (CfnReplicationGroupChild r) ∧
     synthesized id props = Some (Cfn.props r)) ∧
  ∀ k : string,
    is_Some (fst (construct id props) !! k) ↔
    k = "Resource" ∨
    (k = "Subnets" ∧ subnetGroup props = None) ∨
    (k = "SecurityGroup" ∧ securityGroups props = None).
Proof.
  intros Hc. apply construct_ok in Hc as (Hv & _ & Ht).
  split.
  - exists (finalResource props). rewrite synthesized_eq, Hv, Ht, lookup_insert_eq.
    split; reflexivity.
  - intros k. destruct (decide (k = "Resource")) as [->|Hk].
    + rewrite Ht, lookup_insert_eq. split; [left; reflexivity|eauto].
    + rewrite construct_children by exact Hk. rewrite networkChildren_lookup.
      destruct (decide (k = "SecurityGroup")) as [->|Hsg];
        [|destruct (decide (k = "Subnets")) as [->|Hsn]]; cbv iota.
      * destruct (securityGroups props) as [l|]; split.
        -- intros [c Hl]; discriminate.
        -- intros [Hr|[[Hr _]|[_ Hn]]]; discriminate.
        -- intros _. right; right. split; reflexivity.
        -- intros _. eexists; reflexivity.
      * destruct (subnetGroup props) as [g|]; split.
        -- intros [c Hl]; discriminate.
        -- intros [Hr|[[_ Hn]|[Hr _]]]; discriminate.
        -- intros _. right; left. split; reflexivity.
        -- intros _. eexists; reflexivity.
      * split.
        -- intros [c Hl]; discriminate.
        -- intros [Hr|[[Hr _]|[Hr _]]]; contradiction.
Qed.

Lemma X14_children_on_success_witness :
  is_Some (fst (construct "rg" propsVpcOnly) !! "Resource").
Proof.
  destruct (X14_children_on_success "rg" propsVpcOnly (synthesizedHandle propsVpcOnly))
    as [_ H]; [vm_compute; reflexivity|].
  apply H. left; reflexivity.
Defined.

(** X15: the handle of a completed construction refers to the registered
    resource, and the default port of its connections is the port of its
    primary endpoint.  Importing the attributes it exposes gives the same
    handle back and registers nothing. *)
Theorem X15_handle_import_round_trip (id id' : string) (props : ReplicationGroupProps)
    (h : IReplicationGroup) :
  snd (construct id props) = inr h →
  replicationGroupId h = Ref "Resource" ∧
  is_Some (resourceOf (fst (construct id props))) ∧
  ec2.defaultPort (connections h) = ec2.tcp (endpoint.port (primaryEndpoint h)) ∧
  import id' (attributesOf h) = (∅, inr {| import_handle := h; instanceIdentifiers := [] |}).
Proof.
  intros Hc. apply construct_ok in Hc as (_ & -> & Ht).
  rewrite Ht, resourceOf_insert.
  repeat split; eauto.
Qed.

Lemma X15_handle_import_round_trip_witness :
  import "imported" (attributesOf (synthesizedHandle propsVpcOnly))
    = (∅, inr {| import_handle := synthesizedHandle propsVpcOnly;
                 instanceIdentifiers := [] |}).
Proof.
  apply (X15_handle_import_round_trip "rg" "imported" propsVpcOnly).
  vm_compute; reflexivity.
Defined.

(** ** Properties without effect (X16-X18) *)

(** X16: [publiclyAccessible] is not read: changing it changes neither the
    outcome of a construction nor the tree it leaves. *)
Theorem X16_publicly_accessible_ignored (id : string) (props : ReplicationGroupProps)
    (b : option bool) :
  construct id (withPubliclyAccessible b props) = construct id props.
Proof. rewrite !construct_unfold. reflexivity. Qed.

(** X17: with a subnet group supplied, [vpcSubnets] has no effect on the
    outcome of a construction and on the tree it leaves. *)
Theorem X17_vpc_subnets_only_for_default (id : string) (props : ReplicationGroupProps)
    (v : option ec2.SubnetSelection) :
  is_Some (subnetGroup props) →
  construct id (withVpcSubnets v props) = construct id props.
Proof.
  intros [g Hg]. rewrite !construct_unfold.
  unfold networkChildren, finalResource, finalResourceProps, usedSubnetGroup.
  cbn. rewrite Hg. reflexivity.
Qed.

Lemma X17_vpc_subnets_only_for_default_witness :
  construct "rg" (withVpcSubnets (Some {| ec2.subnetType := Some ec2.PUBLIC |})
                                 propsWithSubnetGroup)
  = construct "rg" propsWithSubnetGroup.
Proof.
  apply (X17_vpc_subnets_only_for_default "rg" propsWithSubnetGroup).
  eexists; reflexivity.
Defined.



(** ** The cache node type (X19) *)

(** X19: the cache node type of a resource definition is the supplied node
    type, or [t3.micro] when none is supplied, behind the prefix [cache.];
    different node types give different cache node types. *)
Theorem X19_cache_node_type (id : string) (props : ReplicationGroupProps)
    (r : Cfn.ReplicationGroupProps) :
  synthesized id props = Some r →
  Cfn.cacheNodeType r =
    "cache." ++ ec2.instanceTypeIdentifier
                  (default {| ec2.instanceTypeIdentifier := "t3.micro" |} (nodeType props)) ∧
  ∀ t1 t2 : ec2.InstanceType,
    cacheNodeInstanceType t1 = cacheNodeInstanceType t2 → t1 = t2.
Proof.
  intros Hs. apply synthesized_Some in Hs as [_ ->]. split.
  - unfold finalResourceProps, resourceProps; cbn [Cfn.cacheNodeType].
    destruct (nodeType props); reflexivity.
  - intros [a] [b]. unfold cacheNodeInstanceType, ec2.toString;
      cbn [ec2.instanceTypeIdentifier].
    intros H. injection H as H. change (a = b) in H. rewrite H. reflexivity.
Qed.

Lemma X19_cache_node_type_witness :
  Cfn.cacheNodeType (finalResourceProps propsVpcOnly) = "cache.t3.micro".
Proof.
  apply (X19_cache_node_type "rg" propsVpcOnly).
  vm_compute; reflexivity.
Defined.

(** ** Parameter groups (X20-X22) *)

(** X20: creating a parameter group always completes; it registers exactly
    one child, ['Resource'], with the supplied family and properties and a
    description that is never empty (the supplied one, or the generated text
    when it is absent or empty), and the name of the group refers to that
    child. *)
Theorem X20_parameter_group_constructor (id : string)
    (props : parameter_group.ParameterGroupProps) :
  ∃ (c : parameter_group.CfnParameterGroupProps) (g : IParameterGroup),
    parameter_group.ParameterGroup_constructor id props ∅ = ({[ "Resource" := c ]}, inr g) ∧
    parameterGroupName g = Ref "Resource" ∧
    parameter_group.cfn_cacheParameterGroupFamily c
      = parameter_group.cacheParameterGroupFamily props ∧
    parameter_group.cfn_properties c = parameter_group.properties props ∧
    parameter_group.cfn_description c ≠ "" ∧
    (∀ d : string, parameter_group.description props = Some d → d ≠ "" →
       parameter_group.cfn_description c = d) ∧
    (parameter_group.description props = None ∨
     parameter_group.description props = Some "" →
       parameter_group.cfn_description c = "ElastiCache parameter group.").
Proof.
  eexists; eexists.
  unfold parameter_group.ParameterGroup_constructor.
  rewrite lookup_empty, insert_empty.
  split; [reflexivity|]. cbn. repeat split.
  - unfold Js.orString. destruct (parameter_group.description props) as [d|];
      [case_decide|]; done.
  - intros d -> Hd. unfold Js.orString. case_decide; done.
  - intros [ Hd | Hd ]; rewrite Hd; reflexivity.
Qed.

(** X21: a parameter group imported by name has that name and registers
    nothing, and a replication group created with it carries the name as
    cache parameter group name; in general a resource definition carries
    the name of the supplied parameter group and none when no group is
    supplied. *)
Theorem X21_parameter_group_name_carried (pgId : string) (name : CfnString)
    (s : gmap string parameter_group.CfnParameterGroupProps) :
  ∃ g : IParameterGroup,
    parameter_group.fromParameterGroupName pgId name s = (s, inr g) ∧
    parameterGroupName g = name ∧
    (∀ (id : string) (props : ReplicationGroupProps) (r : Cfn.ReplicationGroupProps),
       synthesized id props = Some r →
       (parameterGroup props = Some g → Cfn.cacheParameterGroupName r = Some name) ∧
       Cfn.cacheParameterGroupName r = parameterGroupName <$> parameterGroup props).
Proof.
  eexists. split; [reflexivity|]. split; [reflexivity|].
  intros id props r Hs. apply synthesized_Some in Hs as [_ ->].
  unfold finalResourceProps, resourceProps; cbn [Cfn.cacheParameterGroupName].
  split; [intros ->; reflexivity|].
  destruct (parameterGroup props); reflexivity.
Qed.

(** X22: the members of [CacheParameterGroupFamily] have pairwise different
    values, and so have the members of [EngineVersion]. *)
Theorem X22_enum_values_distinct :
  (∀ f1 f2 : parameter_group.CacheParameterGroupFamily,
     parameter_group.value f1 = parameter_group.value f2 → f1 = f2) ∧
  (∀ v1 v2 : EngineVersion, EngineVersion_value v1 = EngineVersion_value v2 → v1 = v2).
Proof.
  split.
  - intros [] []; cbn; intros H; first [reflexivity | discriminate H].
  - intros [] []; cbn; intros H; first [reflexivity | discriminate H].
Qed.

(** The unit test [ReplicationGroup with parameter group]: the group is
    created first and then handed to the replication group. *)
Example replication_group_with_parameter_group :
  ∃ g : IParameterGroup,
    snd (parameter_group.ParameterGroup_constructor "Params" testParameterGroupProps ∅)
      = inr g ∧
    Cfn.cacheParameterGroupName
      <$> synthesized "ReplicationGroup"
            (withParameterGroup (Some g) propsVpcOnly)
      = Some (Some (Ref "Resource")).
Proof. eexists. split; vm_compute; reflexivity. Qed.

(** ** The remaining errors (X23, X24) *)

(** X23: under cluster mode, and when the counts do not clash, switching
    multi-AZ off explicitly gives the multi-AZ error; the error on automatic
    failover under cluster mode is thrown exactly when in addition multi-AZ
    is not switched off, the number of node groups is not 1 and automatic
    failover is switched off explicitly.  Leaving either property out is
    accepted. *)
Theorem X23_cluster_mode_errors_exactly (id : string) (props : ReplicationGroupProps) :
  (snd (construct id props) = inl (mkError msgMultiAzCluster) ↔
   ¬ exclusiveFieldsClash props ∧
   clusterModeEnabled props = Some true ∧
   multiAzEnabled props = Some false) ∧
  (snd (construct id props) = inl (mkError msgFailoverCluster) ↔
   ¬ exclusiveFieldsClash props ∧
   clusterModeEnabled props = Some true ∧
   multiAzEnabled props ≠ Some false ∧
   numberOfNodeGroups props ≠ Some 1 ∧
   automaticFailoverEnabled props = Some false).
Proof.
  rewrite !construct_error_iff.
  pose proof (violation_cases props) as H.
  split.
  - other_messages msgMultiAzCluster. intuition congruence.
  - other_messages msgFailoverCluster. intuition congruence.
Qed.

Lemma X23_cluster_mode_errors_exactly_witness :
  snd (construct "rg" propsClusterWithoutMultiAz) = inl (mkError msgMultiAzCluster).
Proof.
  apply (X23_cluster_mode_errors_exactly "rg" propsClusterWithoutMultiAz).
  unfold exclusiveFieldsClash, nonZero; cbn.
  repeat split. intros [(z & [=] & _) _].
Defined.

(** X24: the error on the encryption key is the last one: it is thrown
    exactly when encryption at rest is switched off explicitly, a key is
    supplied, and every rule on the topology is respected. *)
Theorem X24_encryption_error_exactly (id : string) (props : ReplicationGroupProps) :
  snd (construct id props) = inl (mkError msgEncryptionKey) ↔
  atRestEncrypted props = Some false ∧
  is_Some (encryptionKey props) ∧
  ¬ exclusiveFieldsClash props ∧
  (clusterModeEnabled props = Some true →
     multiAzEnabled props ≠ Some false ∧
     numberOfNodeGroups props ≠ Some 1 ∧
     automaticFailoverEnabled props ≠ Some false) ∧
  (multiAzEnabled props = Some true →
     automaticFailoverEnabled props ≠ Some false ∧
     ∀ n : Z, replicasPerNodeGroup props = Some n → (1 ≤ n)%Z).
Proof.
  rewrite construct_error_iff, at_least_one_iff.
  pose proof (violation_cases props) as H.
  other_messages msgEncryptionKey.
  intuition congruence.
Qed.

Lemma X24_encryption_error_exactly_witness :
  snd (construct "ReplicationGroup" propsKeyWithoutEncryption)
    = inl (mkError msgEncryptionKey).
Proof.
  apply (X24_encryption_error_exactly "ReplicationGroup" propsKeyWithoutEncryption).
  unfold exclusiveFieldsClash, nonZero; cbn.
  repeat split; try discriminate.
  - eexists; reflexivity.
  - intros [(z & [=] & _) _].
Defined.
